(** * hackeroni-slack-disclosure-bot: the polling / session / de-duplication core

    A shallow embedding of [worker.py] (the long-running worker) and of
    [poll/lambda.py] (the scheduled poll lambda), and the properties of
    their control flow.

    The programs talk to three HTTP endpoints, to a queue and to the clock.
    Every such interaction is modelled by an explicit reply handed to the
    function that performs it, and by an entry appended to a trace, so the
    functions stay executable and every run can be evaluated. *)

From Stdlib Require Import ZArith Ascii String List Lia.
From stdpp Require Import gmap strings list pretty.

Local Open Scope string_scope.
Local Open Scope list_scope.

(** ** Python values, exceptions and results *)

Module Py.

(** The values [response.json()] produces.  Numbers are the integral ones;
    a dict is its list of items, looked up by key. *)
#[warnings="-register-all"]
Inductive json : Type :=
| JNull
| JBool (b : bool)
| JNum (z : Z)
| JStr (s : string)
| JArr (items : list json)
| JObj (fields : list (string * json)).

(** An element of the parsed markup, [BeautifulSoup(response.text)], in
    document order. *)
Record Tag : Type := mkTag {
  tag_name : string;
  attrs : list (string * string)
}.

(** A [requests.Response]: the status, the body as text, the body as
    [response.json()] decodes it ([None] when decoding raises) and the body as
    the HTML parser reads it. *)
Record Response : Type := mkResponse {
  status_code : Z;
  text : string;
  json_body : option json;
  markup : list Tag
}.

Inductive exn : Type :=
| KeyboardInterrupt
| SystemExit
| HTTPError (response : Response)
| ConnectionError
| JSONDecodeError
| KeyError (key : string)
| TypeError
| AttributeError
| ClientError.

Inductive Result (A : Type) : Type :=
| Done (a : A)
| Raised (e : exn).
Arguments Done {A} a.
Arguments Raised {A} e.

Fixpoint assoc {V : Type} (k : string) (items : list (string * V)) : option V :=
  match items with
  | [] => None
  | (k', v) :: rest => if String.eqb k k' then Some v else assoc k rest
  end.

(** [o[k]] *)
Definition getitem (o : json) (k : string) : Result json :=
  match o with
  | JObj fields =>
      match assoc k fields with
      | Some v => Done v
      | None => Raised (KeyError k)
      end
  | _ => Raised TypeError
  end.

(** [o.get(k, default)] *)
Definition dict_get (o : json) (k : string) (default : json) : Result json :=
  match o with
  | JObj fields =>
      match assoc k fields with
      | Some v => Done v
      | None => Done default
      end
  | _ => Raised AttributeError
  end.

Fixpoint chars (s : string) : list json :=
  match s with
  | EmptyString => []
  | String c rest => JStr (String c EmptyString) :: chars rest
  end.

(** The items a [for] loop or [filter] draws from [o]. *)
Definition iterate (o : json) : Result (list json) :=
  match o with
  | JArr items => Done items
  | JObj fields => Done (map (fun kv => JStr (fst kv)) fields)
  | JStr s => Done (chars s)
  | _ => Raised TypeError
  end.

(** [v == s] for a string literal [s] *)
Definition eq_str (v : json) (s : string) : bool :=
  match v with
  | JStr s' => String.eqb s' s
  | _ => false
  end.

(** The elements of a Python set of JSON values: [True == 1] and
    [False == 0] are one element each, lists and dicts are unhashable. *)
Inductive Key : Type :=
| KNone
| KInt (z : Z)
| KStr (s : string).

Definition hash_key (v : json) : Result Key :=
  match v with
  | JNull => Done KNone
  | JBool b => Done (KInt (if b then 1 else 0))
  | JNum z => Done (KInt z)
  | JStr s => Done (KStr s)
  | JArr _ | JObj _ => Raised TypeError
  end.

#[global] Instance Key_eq_dec : EqDecision Key.
Proof. solve_decision. Defined.

Definition Key_encode (k : Key) : unit + (Z + string) :=
  match k with
  | KNone => inl tt
  | KInt z => inr (inl z)
  | KStr s => inr (inr s)
  end.

Definition Key_decode (x : unit + (Z + string)) : Key :=
  match x with
  | inl _ => KNone
  | inr (inl z) => KInt z
  | inr (inr s) => KStr s
  end.

#[global] Instance Key_countable : Countable Key.
Proof.
  refine (inj_countable' Key_encode Key_decode _).
  intros []; reflexivity.
Defined.

(** [needle in hay] on strings *)
Fixpoint contains (needle hay : string) : bool :=
  if String.prefix needle hay then true
  else match hay with
       | EmptyString => false
       | String _ rest => contains needle rest
       end.

(** [response.raise_for_status()]: client and server error statuses raise. *)
Definition raise_for_status (r : Response) : Result unit :=
  if ((400 <=? status_code r) && (status_code r <? 600))%Z
  then Raised (HTTPError r)
  else Done tt.

(** [response.json()] *)
Definition response_json (r : Response) : Result json :=
  match json_body r with
  | Some v => Done v
  | None => Raised JSONDecodeError
  end.

Definition is_csrf_meta (t : Tag) : bool :=
  String.eqb (tag_name t) "meta" &&
  match assoc "name" (attrs t) with
  | Some n => String.eqb n "csrf-token"
  | None => false
  end.

(** [soup.select_one('meta[name="csrf-token"]')]: the first match, if any. *)
Definition select_one_csrf_meta (soup : list Tag) : option Tag :=
  List.find is_csrf_meta soup.

(** [tag["content"]], where [tag] may be [None] *)
Definition tag_content (t : option Tag) : Result string :=
  match t with
  | None => Raised TypeError
  | Some t =>
      match assoc "content" (attrs t) with
      | Some c => Done c
      | None => Raised (KeyError "content")
      end
  end.

End Py.
Export Py.

(** ** The session, the ledger and the trace of interactions *)

Inductive LogRecord : Type :=
| CsrfTokenInvalid            (* "CSRF token invalid, refreshing..." *)
| Ignoring (report_id : Key)  (* "Ignoring ... as it was already seen..." *)
| Posting (report_id : Key)   (* "Posting ... to Slack..." *)
| ExecutionFailed (e : exn).  (* logging.exception("execution failed") *)

Inductive Action : Type :=
| SessionGet (url : string) (sent_headers : gmap string string)
| SessionPost (url : string) (sent_headers : gmap string string) (since : Z)
| CallPostSlack (payload : json)
| SendMessage (body : json) (deduplication_id : json) (group_id : string)
| Log (r : LogRecord)
| Sleep (seconds : Z).

(** What the outside world answers to a request. *)
Inductive Reply : Type :=
| Returns (r : Response)
| Raises (e : exn).

Record State : Type := mkState {
  headers : gmap string string;   (* session.headers *)
  seen : gset Key;                (* the de-duplication ledger *)
  trace : list Action             (* oldest interaction first *)
}.

(** Computations that read and write the state and may raise. *)
Definition M (A : Type) : Type := State -> Result A * State.

Definition ret {A : Type} (a : A) : M A := fun s => (Done a, s).

Definition raise {A : Type} (e : exn) : M A := fun s => (Raised e, s).

Definition bind {A B : Type} (m : M A) (k : A -> M B) : M B :=
  fun s =>
    match m s with
    | (Done a, s') => k a s'
    | (Raised e, s') => (Raised e, s')
    end.

Notation "x <- m ;; k" := (bind m (fun x => k))
  (at level 100, m at next level, right associativity).
Notation "m ;;; k" := (bind m (fun _ => k))
  (at level 100, right associativity).

Definition lift {A : Type} (r : Result A) : M A := fun s => (r, s).

Definition emit (a : Action) : M unit :=
  fun s => (Done tt, mkState (headers s) (seen s) (trace s ++ [a])).

Definition get_headers : M (gmap string string) := fun s => (Done (headers s), s).

Definition set_header (name value : string) : M unit :=
  fun s => (Done tt, mkState (<[name := value]> (headers s)) (seen s) (trace s)).

Definition get_seen : M (gset Key) := fun s => (Done (seen s), s).

Definition seen_add (k : Key) : M unit :=
  fun s => (Done tt, mkState (headers s) ({[k]} ∪ seen s) (trace s)).

(** [except requests.exceptions.HTTPError as e: handler] around [body] *)
Definition try_except_HTTPError {A : Type} (body : M A) (handler : Response -> M A) : M A :=
  fun s =>
    match body s with
    | (Raised (HTTPError response), s') => handler response s'
    | other => other
    end.

Definition await (reply : Reply) : M Response :=
  match reply with
  | Returns r => ret r
  | Raises e => raise e
  end.

(** [session.get(url)] *)
Definition session_get (url : string) (reply : Reply) : M Response :=
  h <- get_headers ;;
  emit (SessionGet url h) ;;;
  await reply.

(** [session.post(url, json={"query": ..., "variables": {"since": ...}})];
    the query document is the fixed text of [query.graphql]. *)
Definition session_post (url : string) (since : Z) (reply : Reply) : M Response :=
  h <- get_headers ;;
  emit (SessionPost url h since) ;;;
  await reply.

Definition landing_url : string := "https://hackerone.com/hacktivity".
Definition graphql_url : string := "https://hackerone.com/graphql".

(** The headers a new [requests.Session()] starts with. *)
Definition requests_default_headers : gmap string string :=
  <["User-Agent" := "python-requests"]>
  (<["Accept-Encoding" := "gzip, deflate"]>
  (<["Accept" := "*/*"]>
  (<["Connection" := "keep-alive"]> ∅))).

(** [timedelta(minutes=m)], in microseconds *)
Definition minutes (m : Z) : Z := (m * 60 * 1000000)%Z.

Definition rbind {A B : Type} (r : Result A) (k : A -> Result B) : Result B :=
  match r with
  | Done a => k a
  | Raised e => Raised e
  end.

(** [list(filter(p, items))] for a predicate that may raise *)
Fixpoint py_filter (p : json -> Result bool) (items : list json) : Result (list json) :=
  match items with
  | [] => Done []
  | item :: rest =>
      rbind (p item) (fun keep =>
      rbind (py_filter p rest) (fun kept =>
      Done (if keep then item :: kept else kept)))
  end.

(** ** worker.py *)

Module Worker.

Definition user_agent : string :=
  "github.com/bored-engineer/hackeroni-slack-disclosure-bot".

(** The module-level session, and the empty ledger [main] starts from. *)
Definition init : State :=
  mkState (<["User-Agent" := user_agent]> requests_default_headers) ∅ [].

Definition refresh_csrf (reply : Reply) : M unit :=
  response <- session_get landing_url reply ;;
  lift (raise_for_status response) ;;;
  csrf_token <- lift (tag_content (select_one_csrf_meta (markup response))) ;;
  set_header "x-csrf-token" csrf_token.

Definition is_disclosed (node : json) : Result bool :=
  rbind (getitem node "__typename") (fun t => Done (eq_str t "Disclosed")).

Definition fetch_hacktivity (reply : Reply) (since : Z) : M (list json) :=
  response <- session_post graphql_url since reply ;;
  lift (raise_for_status response) ;;;
  body <- lift (response_json response) ;;
  data <- lift (getitem body "data") ;;
  hacktivity_items <- lift (getitem data "hacktivity_items") ;;
  nodes <- lift (getitem hacktivity_items "nodes") ;;
  nodes <- lift (iterate nodes) ;;
  lift (py_filter is_disclosed nodes).

(** [post_slack]: the call is recorded, then the attachment is built and
    posted to the webhook.  [reply] is the webhook's response, or the exception
    raised while the attachment is built or the request is sent. *)
Definition post_slack (reply : Reply) (payload : json) : M unit :=
  emit (CallPostSlack payload) ;;;
  response <- await reply ;;
  lift (raise_for_status response).

(** The body of [for event in events]. *)
Definition process_event (reply : Reply) (event : json) : M unit :=
  report <- lift (getitem event "report") ;;
  report_id <- lift (getitem report "_id") ;;
  key <- lift (hash_key report_id) ;;
  ledger <- get_seen ;;
  if decide (key ∈ ledger) then
    emit (Log (Ignoring key))
  else
    seen_add key ;;;
    emit (Log (Posting key)) ;;;
    post_slack reply event.

(** [slack i] answers the webhook request for the event at position [i] of
    the batch. *)
Fixpoint for_each_event (slack : nat -> Reply) (i : nat) (events : list json) : M unit :=
  match events with
  | [] => ret tt
  | event :: rest =>
      process_event (slack i) event ;;;
      for_each_event slack (S i) rest
  end.

(** What the outside world does during one iteration of [while True]. *)
Record CycleEnv : Type := mkCycleEnv {
  utcnow : Z;                 (* datetime.utcnow(), microseconds *)
  fetch_reply : Reply;        (* to the first POST of the cycle *)
  refresh_reply : Reply;      (* to the GET of the landing page, if sent *)
  refetch_reply : Reply;      (* to the second POST, if sent *)
  slack_reply : nat -> Reply; (* to the webhook, per position in the batch *)
  sleep_reply : option exn    (* what interrupts time.sleep(60), if anything *)
}.

(** The text ["STANDARD_ERROR"], quotes included. *)
Definition marker : string :=
  String "034" ("STANDARD_ERROR" +:+ String "034" EmptyString).

Definition fetch_events (env : CycleEnv) (since : Z) : M (list json) :=
  try_except_HTTPError
    (fetch_hacktivity (fetch_reply env) since)
    (fun response =>
       if negb (status_code response =? 500)%Z || negb (contains marker (text response))
       then raise (HTTPError response)
       else
         emit (Log CsrfTokenInvalid) ;;;
         refresh_csrf (refresh_reply env) ;;;
         fetch_hacktivity (refetch_reply env) since).

(** The body of the outer [try]. *)
Definition cycle (env : CycleEnv) : M unit :=
  let since := (utcnow env - minutes 15)%Z in
  events <- fetch_events env since ;;
  for_each_event (slack_reply env) 0 events.

(** [time.sleep(60)] *)
Definition sleep (reply : option exn) : M unit :=
  emit (Sleep 60) ;;;
  match reply with
  | None => ret tt
  | Some e => raise e
  end.

Inductive Status : Type :=
| Looping             (* the loop is about to start its next iteration *)
| Broke               (* [break]: main returned *)
| Escaped (e : exn).  (* an exception left main *)

(** [while True] over the iterations whose environment is given. *)
Fixpoint main_loop (envs : list CycleEnv) (s : State) : Status * State :=
  match envs with
  | [] => (Looping, s)
  | env :: rest =>
      let (outcome, s1) := cycle env s in
      match outcome with
      | Raised KeyboardInterrupt => (Broke, s1)
      | _ =>
          let s2 :=
            match outcome with
            | Raised e => snd (emit (Log (ExecutionFailed e)) s1)
            | Done _ => s1
            end in
          match sleep (sleep_reply env) s2 with
          | (Done _, s3) => main_loop rest s3
          | (Raised e, s3) => (Escaped e, s3)
          end
      end
  end.

Definition main (envs : list CycleEnv) : Status * State := main_loop envs init.

End Worker.

(** ** poll/lambda.py *)

Module Poll.

Definition refresh_csrf (reply : Reply) : M unit :=
  response <- session_get landing_url reply ;;
  lift (raise_for_status response) ;;;
  csrf_token <- lift (tag_content (select_one_csrf_meta (markup response))) ;;
  set_header "x-csrf-token" csrf_token.

Definition fetch_hacktivity (reply : Reply) (since : Z) : M json :=
  response <- session_post graphql_url since reply ;;
  lift (raise_for_status response) ;;;
  body <- lift (response_json response) ;;
  data <- lift (getitem body "data") ;;
  hacktivity_items <- lift (getitem data "hacktivity_items") ;;
  lift (getitem hacktivity_items "nodes").

(** [event.get("report", {}).get("_id")] *)
Definition deduplication_id (event : json) : Result json :=
  rbind (dict_get event "report" (JObj [])) (fun report =>
  dict_get report "_id" JNull).

(** [sqs.send_message(...)]: the arguments are evaluated, then the call is
    made; [reply] is the exception the call raises, if any. *)
Definition send_message (reply : option exn) (event : json) : M unit :=
  id <- lift (deduplication_id event) ;;
  emit (SendMessage event id "hacktivity") ;;;
  match reply with
  | None => ret tt
  | Some e => raise e
  end.

Fixpoint for_each_event (sqs : nat -> option exn) (i : nat) (events : list json) : M unit :=
  match events with
  | [] => ret tt
  | event :: rest =>
      send_message (sqs i) event ;;;
      for_each_event sqs (S i) rest
  end.

Record InvocationEnv : Type := mkInvocationEnv {
  utcnow : Z;
  refresh_reply : Reply;
  fetch_reply : Reply;
  sqs_reply : nat -> option exn
}.

(** [with requests.Session() as session] *)
Definition new_session : M unit :=
  fun s => (Done tt, mkState requests_default_headers (seen s) (trace s)).

Definition lambda_handler (env : InvocationEnv) : M unit :=
  new_session ;;;
  refresh_csrf (refresh_reply env) ;;;
  let since := (utcnow env - minutes 4)%Z in
  nodes <- fetch_hacktivity (fetch_reply env) since ;;
  events <- lift (iterate nodes) ;;
  for_each_event (sqs_reply env) 0 events.

Definition init : State := mkState ∅ ∅ [].

End Poll.

(** ** Sample replies and events *)

Module Samples.

Definition node (typename id : string) : json :=
  JObj [("__typename", JStr typename);
        ("report", JObj [("_id", JStr id); ("title", JStr "Testing Report")])].

Definition X : json := node "Disclosed" "1337".
Definition Y : json := node "Disclosed" "1338".
Definition Z' : json := node "Disclosed" "1339".
Definition other : json := node "Other" "7".

Definition nodes_response (nodes : list json) : Response :=
  mkResponse 200 "{...}"
    (Some (JObj [("data", JObj [("hacktivity_items", JObj [("nodes", JArr nodes)])])]))
    [].

Definition error_response (status : Z) (body : string) : Response :=
  mkResponse status body None [].

Definition standard_error_body : string :=
  "{" +:+ String "034" "errors" +:+ String "034" ":[{" +:+ String "034" "type"
      +:+ String "034" ":" +:+ Worker.marker +:+ "}]}".

Definition landing_page (status : Z) (token : string) : Response :=
  mkResponse status "<html>...</html>" None
    [mkTag "html" []; mkTag "head" [];
     mkTag "meta" [("charset", "utf-8")];
     mkTag "meta" [("name", "csrf-token"); ("content", token)];
     mkTag "body" []].

Definition page_without_token (status : Z) : Response :=
  mkResponse status "<html>...</html>" None
    [mkTag "html" []; mkTag "head" []; mkTag "body" []].

Definition slack_ok : Response := mkResponse 200 "ok" None [].
Definition slack_down : Response := mkResponse 503 "unavailable" None [].

Definition all_ok (i : nat) : Reply := Returns slack_ok.

Definition first_fails (i : nat) : Reply :=
  match i with
  | O => Returns slack_down
  | _ => Returns slack_ok
  end.

Definition second_fails (i : nat) : Reply :=
  match i with
  | 1 => Returns slack_down
  | _ => Returns slack_ok
  end.

(** A cycle in which the fetch returns [nodes] at once. *)
Definition plain_cycle (now : Z) (nodes : list json) (slack : nat -> Reply) : Worker.CycleEnv :=
  Worker.mkCycleEnv now (Returns (nodes_response nodes))
    (Raises ConnectionError) (Raises ConnectionError) slack None.

(** A cycle whose first fetch is answered by [first]. *)
Definition retry_cycle (first refresh second : Reply) : Worker.CycleEnv :=
  Worker.mkCycleEnv 1000000000 first refresh second all_ok None.

(** A cycle whose forward fails, and one whose fetch raises SystemExit. *)
Definition failing_cycle : Worker.CycleEnv := plain_cycle 1000000000 [X; Y] first_fails.
Definition exiting_cycle : Worker.CycleEnv :=
  retry_cycle (Raises SystemExit) (Raises ConnectionError) (Raises ConnectionError).

End Samples.

(** ** Observations on states and traces *)

Definition push (a : Action) (s : State) : State :=
  mkState (headers s) (seen s) (trace s ++ [a]).

Definition count (p : Action -> bool) (tr : list Action) : nat :=
  length (List.filter p tr).

Definition is_refresh (a : Action) : bool :=
  match a with SessionGet _ _ => true | _ => false end.

Definition is_fetch (a : Action) : bool :=
  match a with SessionPost _ _ _ => true | _ => false end.

Definition is_sleep (a : Action) : bool :=
  match a with Sleep _ => true | _ => false end.

(** Token refreshes, fetches and sleeps of a trace. *)
Definition refreshes (tr : list Action) : nat := count is_refresh tr.
Definition fetches (tr : list Action) : nat := count is_fetch tr.
Definition sleeps (tr : list Action) : nat := count is_sleep tr.

(** [event["report"]["_id"]] as an element of the ledger *)
Definition event_id (event : json) : Result Key :=
  rbind (getitem event "report") (fun report =>
  rbind (getitem report "_id") hash_key).

Definition is_forward_of (k : Key) (a : Action) : bool :=
  match a with
  | CallPostSlack payload =>
      match event_id payload with
      | Done k' => bool_decide (k' = k)
      | Raised _ => false
      end
  | _ => false
  end.

(** How many times [post_slack] was called for identifier [k]. *)
Definition forwards (k : Key) (tr : list Action) : nat := count (is_forward_of k) tr.

(** The payloads [post_slack] was called with, in order. *)
Fixpoint forwarded (tr : list Action) : list json :=
  match tr with
  | [] => []
  | CallPostSlack payload :: rest => payload :: forwarded rest
  | _ :: rest => forwarded rest
  end.

(** The [since] values of the fetches of a trace, in order. *)
Fixpoint since_values (tr : list Action) : list Z :=
  match tr with
  | [] => []
  | SessionPost _ _ since :: rest => since :: since_values rest
  | _ :: rest => since_values rest
  end.

(** The messages handed to the queue, in order. *)
Fixpoint sent_messages (tr : list Action) : list (json * json * string) :=
  match tr with
  | [] => []
  | SendMessage body id group :: rest => (body, id, group) :: sent_messages rest
  | _ :: rest => sent_messages rest
  end.

(** A request made through the session carries an [x-csrf-token] header. *)
Definition carries_token (a : Action) : bool :=
  match a with
  | SessionGet _ h | SessionPost _ h _ => bool_decide (is_Some (h !! "x-csrf-token"))
  | _ => true
  end.

Definition reply_result (reply : Reply) : Result Response :=
  match reply with
  | Returns r => Done r
  | Raises e => Raised e
  end.

Definition is_done {A : Type} (r : Result A) : bool :=
  match r with Done _ => true | Raised _ => false end.

(** What a fetch of the worker returns, as a function of the reply alone. *)
Definition fetch_result (reply : Reply) : Result (list json) :=
  rbind (reply_result reply) (fun response =>
  rbind (raise_for_status response) (fun _ =>
  rbind (response_json response) (fun body =>
  rbind (getitem body "data") (fun data =>
  rbind (getitem data "hacktivity_items") (fun hacktivity_items =>
  rbind (getitem hacktivity_items "nodes") (fun nodes =>
  rbind (iterate nodes) (fun nodes =>
  py_filter Worker.is_disclosed nodes))))))).

(** What a fetch of the poll lambda returns. *)
Definition poll_fetch_result (reply : Reply) : Result json :=
  rbind (reply_result reply) (fun response =>
  rbind (raise_for_status response) (fun _ =>
  rbind (response_json response) (fun body =>
  rbind (getitem body "data") (fun data =>
  rbind (getitem data "hacktivity_items") (fun hacktivity_items =>
  getitem hacktivity_items "nodes"))))).

(** The token a refresh extracts from the reply to its request. *)
Definition refresh_result (reply : Reply) : Result string :=
  rbind (reply_result reply) (fun response =>
  rbind (raise_for_status response) (fun _ =>
  tag_content (select_one_csrf_meta (markup response)))).

(** What [post_slack] returns. *)
Definition forward_result (reply : Reply) : Result unit :=
  rbind (reply_result reply) raise_for_status.

(** The failure the retry policy reads as an expired token: an HTTP error
    with status 500 whose body contains the marker. *)
Definition expired_token {A : Type} (r : Result A) : bool :=
  match r with
  | Raised (HTTPError response) =>
      (status_code response =? 500)%Z && contains Worker.marker (text response)
  | _ => false
  end.

(** No reply of the cycle delivers a cancellation. *)
Definition calm_reply (reply : Reply) : Prop := reply <> Raises KeyboardInterrupt.

Record calm (env : Worker.CycleEnv) : Prop := mkCalm {
  calm_fetch : calm_reply (Worker.fetch_reply env);
  calm_refresh : calm_reply (Worker.refresh_reply env);
  calm_refetch : calm_reply (Worker.refetch_reply env);
  calm_slack : forall i, calm_reply (Worker.slack_reply env i);
  calm_sleep : Worker.sleep_reply env = None
}.

(** The state in which the next iteration starts, when this one was not
    cancelled. *)
Definition after_cycle (env : Worker.CycleEnv) (s : State) : State :=
  match Worker.cycle env s with
  | (Done _, s1) => push (Sleep 60) s1
  | (Raised e, s1) => push (Sleep 60) (push (Log (ExecutionFailed e)) s1)
  end.

(** The effect of a token refresh on the state. *)
Definition refreshed (reply : Reply) (s : State) : Result unit * State :=
  match refresh_result reply with
  | Done token =>
      (Done tt,
       mkState (<["x-csrf-token" := token]> (headers s)) (seen s)
               (trace s ++ [SessionGet landing_url (headers s)]))
  | Raised e => (Raised e, push (SessionGet landing_url (headers s)) s)
  end.

(** The effect of one iteration of the loop over the batch. *)
Definition processed (reply : Reply) (event : json) (s : State) : Result unit * State :=
  match event_id event with
  | Raised e => (Raised e, s)
  | Done k =>
      if decide (k ∈ seen s) then (Done tt, push (Log (Ignoring k)) s)
      else (forward_result reply,
            mkState (headers s) ({[k]} ∪ seen s)
                    ((trace s ++ [Log (Posting k)]) ++ [CallPostSlack event]))
  end.

(** The effect of the fetch with its retry policy. *)
Definition fetched (env : Worker.CycleEnv) (since : Z) (s : State) : Result (list json) * State :=
  let first := fetch_result (Worker.fetch_reply env) in
  let s1 := push (SessionPost graphql_url (headers s) since) s in
  if expired_token first then
    match refreshed (Worker.refresh_reply env) (push (Log CsrfTokenInvalid) s1) with
    | (Done _, s3) =>
        (fetch_result (Worker.refetch_reply env),
         push (SessionPost graphql_url (headers s3) since) s3)
    | (Raised e, s3) => (Raised e, s3)
    end
  else (first, s1).

(** The interactions of the loop over the batch. *)
Definition loop_action (a : Action) : Prop :=
  match a with
  | Log (Ignoring _) | Log (Posting _) | CallPostSlack _ => True
  | _ => False
  end.

(** Every identifier forwarded so far is in the ledger and was forwarded
    once. *)
Definition ledger_covers (s : State) : Prop :=
  forall k, forwards k (trace s) <= 1 /\ (k ∉ seen s -> forwards k (trace s) = 0).

(** From [s] to [s'] only the loop over the batch has run. *)
Definition loop_extends (s s' : State) : Prop :=
  headers s' = headers s /\ seen s ⊆ seen s' /\
  exists new, trace s' = trace s ++ new /\ Forall loop_action new.

(** From [s] to [s'] the identifier [k] stayed in the ledger and was not
    forwarded. *)
Definition settled (k : Key) (s s' : State) : Prop :=
  k ∈ seen s' /\ forwards k (trace s') = forwards k (trace s).

(** [node["__typename"] == "Disclosed"], false when the node has no such
    field. *)
Definition disclosed (node : json) : bool :=
  match getitem node "__typename" with
  | Done t => eq_str t "Disclosed"
  | Raised _ => false
  end.

(** The messages of the loop of the poll lambda over [events], and how the
    loop ends. *)
Fixpoint queued (sqs : nat -> option exn) (i : nat) (events : list json)
  : Result unit * list Action :=
  match events with
  | [] => (Done tt, [])
  | event :: rest =>
      match Poll.deduplication_id event with
      | Raised e => (Raised e, [])
      | Done id =>
          let message := SendMessage event id "hacktivity" in
          match sqs i with
          | Some e => (Raised e, [message])
          | None => (fst (queued sqs (S i) rest), message :: snd (queued sqs (S i) rest))
          end
      end
  end.

(** The effect of one invocation of the poll lambda. *)
Definition invoked (env : Poll.InvocationEnv) (s : State) : Result unit * State :=
  match refreshed (Poll.refresh_reply env) (mkState requests_default_headers (seen s) (trace s)) with
  | (Raised e, s1) => (Raised e, s1)
  | (Done _, s1) =>
      let s2 := push (SessionPost graphql_url (headers s1) (Poll.utcnow env - minutes 4)) s1 in
      match rbind (poll_fetch_result (Poll.fetch_reply env)) iterate with
      | Raised e => (Raised e, s2)
      | Done events =>
          (fst (queued (Poll.sqs_reply env) 0 events),
           mkState (headers s2) (seen s2)
                   (trace s2 ++ snd (queued (Poll.sqs_reply env) 0 events)))
      end
  end.

(** A result other than the cancellation signal. *)
Definition benign {A : Type} (r : Result A) : Prop := r <> Raised KeyboardInterrupt.

(** The session has an [x-csrf-token] header. *)
Definition tokened (s : State) : Prop := is_Some (headers s !! "x-csrf-token").

(** From [s] to [s'] the trace was extended, and if the session had a token
    in [s] it still has one in [s'] and every request in between carried one. *)
Definition follows (s s' : State) : Prop :=
  exists new, trace s' = trace s ++ new /\
    (tokened s -> tokened s' /\ Forall (fun a => carries_token a = true) new).

(** The message the poll lambda sends for [event]. *)
Definition message (event : json) : Action :=
  SendMessage event
    (match Poll.deduplication_id event with Done id => id | Raised _ => JNull end)
    "hacktivity".

(** The deduplication id of [event] evaluates without raising. *)
Definition has_id (event : json) : Prop := is_done (Poll.deduplication_id event) = true.

(** [message] as the queue receives it: body, deduplication id, group id. *)
Definition envelope (event : json) : json * json * string :=
  (event,
   match Poll.deduplication_id event with Done id => id | Raised _ => JNull end,
   "hacktivity").

(** ** post_slack and record_handler: the message sent to the webhook *)

Notation "x <~ r ;; k" := (rbind r (fun x => k))
  (at level 100, r at next level, right associativity).

Module Text.

(** What the embedding takes from the Python runtime as given: the text of a
    list or of a dict, [str.title] and the conversion of ISO text to a POSIX
    timestamp (microseconds here), which raises on text that is no date. *)
Record Runtime : Type := mkRuntime {
  str_repr : json -> string;
  str_title : string -> string;
  iso_timestamp : string -> Result Z
}.

(** [if v:] *)
Definition truthy (v : json) : bool :=
  match v with
  | JNull => false
  | JBool b => b
  | JNum z => negb (z =? 0)%Z
  | JStr s => negb (String.eqb s "")
  | JArr items => match items with [] => false | _ :: _ => true end
  | JObj fields => match fields with [] => false | _ :: _ => true end
  end.

(** [str(v)], as an f-string renders [v] *)
Definition str (py : Runtime) (v : json) : string :=
  match v with
  | JNull => "None"
  | JBool true => "True"
  | JBool false => "False"
  | JNum z => pretty z
  | JStr s => s
  | JArr _ | JObj _ => str_repr py v
  end.

(** [v + s] for a string [s] *)
Definition add_str (v : json) (s : string) : Result string :=
  match v with
  | JStr a => Done (a +:+ s)
  | _ => Raised TypeError
  end.

Definition site : string := "https://hackerone.com".

(** [if not picture.startswith("http"): picture = "https://hackerone.com" + picture] *)
Definition qualified (picture : json) : Result string :=
  match picture with
  | JStr s => Done (if String.prefix "http" s then s else site +:+ s)
  | _ => Raised AttributeError
  end.

(** [s.replace(old, new)] for one-character [old] and [new] *)
Fixpoint replace_char (old new : ascii) (s : string) : string :=
  match s with
  | EmptyString => EmptyString
  | String c rest =>
      String (if Ascii.eqb c old then new else c) (replace_char old new rest)
  end.

(** [s.rstrip(c)] for a one-character [c] *)
Fixpoint rstrip (c : ascii) (s : string) : string :=
  match s with
  | EmptyString => EmptyString
  | String a rest =>
      match rstrip c rest with
      | EmptyString => if Ascii.eqb a c then EmptyString else String a EmptyString
      | kept => String a kept
      end
  end.

Definition is_upper (c : ascii) : bool :=
  ((65 <=? nat_of_ascii c) && (nat_of_ascii c <=? 90))%nat.

Definition is_lower (c : ascii) : bool :=
  ((97 <=? nat_of_ascii c) && (nat_of_ascii c <=? 122))%nat.

Definition to_lower (c : ascii) : ascii :=
  if is_upper c then ascii_of_nat (nat_of_ascii c + 32) else c.

Definition to_upper (c : ascii) : ascii :=
  if is_lower c then ascii_of_nat (nat_of_ascii c - 32) else c.

(** [str.title] on ASCII text: a letter is put in upper case when the
    character before it is no letter, and in lower case otherwise. *)
Fixpoint title_from (after_letter : bool) (s : string) : string :=
  match s with
  | EmptyString => EmptyString
  | String c rest =>
      String (if after_letter then to_lower c else to_upper c)
             (title_from (is_upper c || is_lower c) rest)
  end.

Definition ascii_title (s : string) : string := title_from false s.

Fixpoint lower (s : string) : string :=
  match s with
  | EmptyString => EmptyString
  | String c rest => String (to_lower c) (lower rest)
  end.

Fixpoint ascii_text (s : string) : bool :=
  match s with
  | EmptyString => true
  | String c rest => (nat_of_ascii c <? 128)%nat && ascii_text rest
  end.

(** The runtime's [str.title] is Python's on ASCII text. *)
Definition faithful_title (py : Runtime) : Prop :=
  forall s, ascii_text s = true -> str_title py s = ascii_title s.

(** [rating.replace("_", " ").title()] *)
Definition severity_label (py : Runtime) (rating : json) : Result string :=
  match rating with
  | JStr s => Done (str_title py (replace_char "_" " " s))
  | _ => Raised AttributeError
  end.

(** The colour of the attachment, from the H1 UI. *)
Definition color_of (severity : string) : option string :=
  if String.eqb severity "New" then Some "#8e44ad"
  else if String.eqb severity "Triaged" then Some "#e67e22"
  else if String.eqb severity "Resolved" then Some "#609828"
  else if String.eqb severity "Not Applicable" then Some "#ce3f4b"
  else if String.eqb severity "Informative" then Some "#ccc"
  else if String.eqb severity "Duplicate" then Some "#a78260"
  else if String.eqb severity "Spam" then Some "#555"
  else None.

(** [disclosed_at.rstrip("Z")] handed to the conversion *)
Definition disclosed_timestamp (py : Runtime) (disclosed_at : json) : Result Z :=
  match disclosed_at with
  | JStr d => iso_timestamp py (rstrip "Z" d)
  | _ => Raised AttributeError
  end.

Definition quote : string := String "034" EmptyString.

End Text.

Module Webhook.

Record Field : Type := mkField {
  field_title : string;
  field_value : string;
  field_short : bool
}.

(** The attachment dict; the two keys set only on some paths are options. *)
Record Attachment : Type := mkAttachment {
  a_author_name : json;
  a_author_link : json;
  a_author_icon : string;
  a_title : string;
  a_title_link : json;
  a_footer : string;
  a_footer_icon : string;
  a_mrkdwn_in : list string;
  a_fields : list Field;
  a_fallback : string;
  a_color : option string;
  a_timestamp : option Z
}.

Record Message : Type := mkMessage {
  m_username : string;
  m_icon_url : string;
  m_attachments : list Attachment
}.

(** [requests.post(url=..., json=...)] *)
Record Request : Type := mkRequest {
  r_url : string;
  r_json : Message
}.

End Webhook.

(** *** worker.py, [post_slack] in full *)

Module Notify.

Definition LOGO_URL : string :=
  "https://profile-photos.hackerone-user-content.com/variants/000/000/013/fa942b9b1cbf4faf37482bf68458e1195aab9c02_original.png/0621f211aae8984f02f017decf83d0064fe91a6a16b11f840ecf5b53ddb7b872".

(** Everything [post_slack] evaluates before the request leaves (lines 49 to
    131): the request it is about to send, or the exception raised on the
    way.  [webhook_url] is [os.environ] at SLACK_WEBHOOK_URL. *)
Definition slack_request (py : Text.Runtime) (webhook_url : option string) (payload : json)
  : Result Webhook.Request :=
  reporter <~ getitem payload "reporter" ;;
  username <~ getitem reporter "username" ;;
  name <~ getitem reporter "name" ;;
  reporter_name <~
    (if Text.truthy name
     then s <~ Text.add_str name (" (" +:+ Text.str py username +:+ ")") ;; Done (JStr s)
     else Done username) ;;
  profile_picture <~ getitem reporter "profile_picture" ;;
  reporter_picture <~ Text.qualified profile_picture ;;
  author_link <~ getitem reporter "url" ;;
  report <~ getitem payload "report" ;;
  report_id <~ getitem report "_id" ;;
  report_title <~ getitem report "title" ;;
  report_url <~ getitem report "url" ;;
  severity_rating <~ getitem payload "severity_rating" ;;
  severity <~
    (if Text.truthy severity_rating
     then label <~ Text.severity_label py severity_rating ;; Done (Some label)
     else Done None) ;;
  total_awarded_amount <~ getitem payload "total_awarded_amount" ;;
  bounty <~
    (if Text.truthy total_awarded_amount
     then currency <~ getitem payload "currency" ;;
          Done (Some (Text.str py total_awarded_amount +:+ " " +:+ Text.str py currency))
     else Done None) ;;
  disclosed_at <~ getitem report "disclosed_at" ;;
  timestamp <~
    (if Text.truthy disclosed_at
     then t <~ Text.disclosed_timestamp py disclosed_at ;; Done (Some t)
     else Done None) ;;
  team <~ getitem payload "team" ;;
  team_profile_picture <~ getitem team "profile_picture" ;;
  team_picture <~ Text.qualified team_profile_picture ;;
  url <~ match webhook_url with
         | Some u => Done u
         | None => Raised (KeyError "SLACK_WEBHOOK_URL")
         end ;;
  team_name <~ getitem team "name" ;;
  let attachment :=
    Webhook.mkAttachment
      reporter_name
      author_link
      reporter_picture
      ("Report " +:+ Text.str py report_id +:+ ": " +:+ Text.str py report_title)
      report_url
      "HackerOne Disclosure Bot"
      LOGO_URL
      ["text"; "pretext"]
      (match severity with
       | Some label => [Webhook.mkField "Severity" label true]
       | None => []
       end ++
       match bounty with
       | Some amount => [Webhook.mkField "Bounty" amount true]
       | None => []
       end)
      (Text.quote +:+ Text.str py report_title +:+ Text.quote +:+ " - "
         +:+ Text.str py report_url
         +:+ match severity with Some label => " - " +:+ label | None => "" end
         +:+ match bounty with Some amount => " - " +:+ amount | None => "" end)
      (match severity with Some label => Text.color_of label | None => None end)
      timestamp in
  Done (Webhook.mkRequest url
          (Webhook.mkMessage (Text.str py team_name +:+ " disclosed") team_picture
             [attachment])).

(** [post_slack]: the call is recorded, the request is built and sent, the
    status of the answer is checked. *)
Definition post_slack (py : Text.Runtime) (webhook_url : option string)
    (webhook : Webhook.Request -> Reply) (payload : json) : M unit :=
  emit (CallPostSlack payload) ;;;
  request <- lift (slack_request py webhook_url payload) ;;
  response <- await (webhook request) ;;
  lift (raise_for_status response).

(** The body of [for event in events], with [post_slack] in full. *)
Definition process_event (py : Text.Runtime) (webhook_url : option string)
    (webhook : Webhook.Request -> Reply) (event : json) : M unit :=
  report <- lift (getitem event "report") ;;
  report_id <- lift (getitem report "_id") ;;
  key <- lift (hash_key report_id) ;;
  ledger <- get_seen ;;
  if decide (key ∈ ledger) then
    emit (Log (Ignoring key))
  else
    seen_add key ;;;
    emit (Log (Posting key)) ;;;
    post_slack py webhook_url webhook event.

(** [webhook i] answers the request made for the event at position [i]. *)
Fixpoint for_each_event (py : Text.Runtime) (webhook_url : option string)
    (webhook : nat -> Webhook.Request -> Reply) (i : nat) (events : list json) : M unit :=
  match events with
  | [] => ret tt
  | event :: rest =>
      process_event py webhook_url (webhook i) event ;;;
      for_each_event py webhook_url webhook (S i) rest
  end.

(** One iteration of [while True]: the replies of [env] to the fetches and
    the refresh, and the webhook. *)
Definition cycle (py : Text.Runtime) (webhook_url : option string)
    (env : Worker.CycleEnv) (webhook : nat -> Webhook.Request -> Reply) : M unit :=
  let since := (Worker.utcnow env - minutes 15)%Z in
  events <- Worker.fetch_events env since ;;
  for_each_event py webhook_url webhook 0 events.

Fixpoint main_loop (py : Text.Runtime) (webhook_url : option string)
    (envs : list (Worker.CycleEnv * (nat -> Webhook.Request -> Reply))) (s : State)
  : Worker.Status * State :=
  match envs with
  | [] => (Worker.Looping, s)
  | (env, webhook) :: rest =>
      let (outcome, s1) := cycle py webhook_url env webhook s in
      match outcome with
      | Raised KeyboardInterrupt => (Worker.Broke, s1)
      | _ =>
          let s2 :=
            match outcome with
            | Raised e => snd (emit (Log (ExecutionFailed e)) s1)
            | Done _ => s1
            end in
          match Worker.sleep (Worker.sleep_reply env) s2 with
          | (Done _, s3) => main_loop py webhook_url rest s3
          | (Raised e, s3) => (Worker.Escaped e, s3)
          end
      end
  end.

End Notify.

(** *** slack/lambda.py *)

Module SlackLambda.

(** An [SQSRecord]: its body, and the body as [json.loads] decodes it
    ([None] when decoding raises). *)
Record SQSRecord : Type := mkSQSRecord {
  record_body : string;
  record_json : option json
}.

(** Everything [record_handler] evaluates on the decoded payload before the
    request leaves (lines 24 to 106). *)
Definition record_request (py : Text.Runtime) (webhook_url : option string) (payload : json)
  : Result Webhook.Request :=
  reporter <~ getitem payload "reporter" ;;
  username <~ getitem reporter "username" ;;
  name <~ getitem reporter "name" ;;
  reporter_name <~
    (if Text.truthy name
     then s <~ Text.add_str name (" (" +:+ Text.str py username +:+ ")") ;; Done (JStr s)
     else Done username) ;;
  profile_picture <~ getitem reporter "profile_picture" ;;
  reporter_picture <~ Text.qualified profile_picture ;;
  author_link <~ getitem reporter "url" ;;
  report <~ getitem payload "report" ;;
  report_id <~ getitem report "_id" ;;
  report_title <~ getitem report "title" ;;
  report_url <~ getitem report "url" ;;
  severity_rating <~ getitem payload "severity_rating" ;;
  severity <~
    (if Text.truthy severity_rating
     then label <~ Text.severity_label py severity_rating ;; Done (Some label)
     else Done None) ;;
  total_awarded_amount <~ getitem payload "total_awarded_amount" ;;
  bounty <~
    (if Text.truthy total_awarded_amount
     then currency <~ getitem payload "currency" ;;
          Done (Some (Text.str py total_awarded_amount +:+ " " +:+ Text.str py currency))
     else Done None) ;;
  disclosed_at <~ getitem report "disclosed_at" ;;
  timestamp <~
    (if Text.truthy disclosed_at
     then t <~ Text.disclosed_timestamp py disclosed_at ;; Done (Some t)
     else Done None) ;;
  team <~ getitem payload "team" ;;
  team_profile_picture <~ getitem team "profile_picture" ;;
  team_picture <~ Text.qualified team_profile_picture ;;
  url <~ match webhook_url with
         | Some u => Done u
         | None => Raised (KeyError "SLACK_WEBHOOK_URL")
         end ;;
  team_name <~ getitem team "name" ;;
  let attachment :=
    Webhook.mkAttachment
      reporter_name
      author_link
      reporter_picture
      ("Report " +:+ Text.str py report_id +:+ ": " +:+ Text.str py report_title)
      report_url
      "HackerOne Disclosure Bot"
      "https://profile-photos.hackerone-user-content.com/variants/000/000/013/fa942b9b1cbf4faf37482bf68458e1195aab9c02_original.png/0621f211aae8984f02f017decf83d0064fe91a6a16b11f840ecf5b53ddb7b872"
      ["text"; "pretext"]
      (match severity with
       | Some label => [Webhook.mkField "Severity" label true]
       | None => []
       end ++
       match bounty with
       | Some amount => [Webhook.mkField "Bounty" amount true]
       | None => []
       end)
      (Text.quote +:+ Text.str py report_title +:+ Text.quote +:+ " - "
         +:+ Text.str py report_url
         +:+ match severity with Some label => " - " +:+ label | None => "" end
         +:+ match bounty with Some amount => " - " +:+ amount | None => "" end)
      (match severity with Some label => Text.color_of label | None => None end)
      timestamp in
  Done (Webhook.mkRequest url
          (Webhook.mkMessage (Text.str py team_name +:+ " disclosed") team_picture
             [attachment])).

Definition record_handler (py : Text.Runtime) (webhook_url : option string)
    (webhook : Webhook.Request -> Reply) (record : SQSRecord) : Result unit :=
  payload <~ match record_json record with
             | Some v => Done v
             | None => Raised JSONDecodeError
             end ;;
  request <~ record_request py webhook_url payload ;;
  response <~ reply_result (webhook request) ;;
  raise_for_status response.

End SlackLambda.

(** *** Sample payload, after the one slack/lambda.py runs on as a script
    (shorter picture addresses, a relative one for the reporter) *)

Module SlackSamples.

Definition picture : string :=
  "https://hackerone-us-west-2-production-attachments.s3.us-west-2.amazonaws.com/variants/xh0k94drzpd2d2z4bz9b1kbzngbh/85262aa80c1b0a9084532ae18b3d746a50817aadbb3dff7c8290425c702034b1".

Definition payload : json :=
  JObj [("id", JStr "12345");
        ("severity_rating", JStr "critical");
        ("currency", JStr "USD");
        ("total_awarded_amount", JStr "1337");
        ("report", JObj [("_id", JStr "1337");
                         ("url", JStr "https://hackerone.com/bored-engineer");
                         ("title", JStr "Testing Report");
                         ("substate", JStr "resolved");
                         ("disclosed_at", JStr "2022-09-04T13:23:03.840Z")]);
        ("team", JObj [("url", JStr "https://hackerone.com/bored-engineer");
                       ("name", JStr "bored-engineer");
                       ("profile_picture", JStr picture)]);
        ("reporter", JObj [("name", JStr "Luke Young");
                           ("username", JStr "bored-engineer");
                           ("url", JStr "https://hackerone.com/bored-engineer");
                           ("profile_picture", JStr "/assets/avatar.png")])].

(** A runtime for ASCII text that renders containers as nothing and reads
    every date as the same instant. *)
Definition runtime : Text.Runtime :=
  Text.mkRuntime (fun _ => "") Text.ascii_title (fun _ => Done 1662297783840000%Z).

(** The fields of [payload] other than severity_rating, and the payload
    with a rating of one's choice put first. *)
Definition others : list (string * json) :=
  match payload with
  | JObj fields => List.filter (fun kv => negb (String.eqb (fst kv) "severity_rating")) fields
  | _ => []
  end.

Definition rated (rating : string) : json := JObj (("severity_rating", JStr rating) :: others).

Definition hook : string := "https://hooks.slack.com/services/T/B/X".

(** The request built for [payload]. *)
Definition request : Webhook.Request :=
  Webhook.mkRequest hook
    (Webhook.mkMessage "bored-engineer disclosed" picture
       [Webhook.mkAttachment
          (JStr "Luke Young (bored-engineer)")
          (JStr "https://hackerone.com/bored-engineer")
          "https://hackerone.com/assets/avatar.png"
          "Report 1337: Testing Report"
          (JStr "https://hackerone.com/bored-engineer")
          "HackerOne Disclosure Bot"
          Notify.LOGO_URL
          ["text"; "pretext"]
          [Webhook.mkField "Severity" "Critical" true;
           Webhook.mkField "Bounty" "1337 USD" true]
          (String "034" "Testing Report" +:+ String "034"
             " - https://hackerone.com/bored-engineer - Critical - 1337 USD")
          None
          (Some 1662297783840000%Z)]).

Definition accepts (request : Webhook.Request) : Reply := Returns Samples.slack_ok.

End SlackSamples.

(** *** Observations on post_slack in full *)

(** The reply the coarse [Worker.post_slack] stands for: the webhook's answer
    to the request, or the exception raised while the request is built. *)
Definition slack_answer (py : Text.Runtime) (webhook_url : option string)
    (webhook : Webhook.Request -> Reply) (payload : json) : Reply :=
  match Notify.slack_request py webhook_url payload with
  | Done request => webhook request
  | Raised e => Raises e
  end.

(** What the fetch of a cycle ends with, retry included. *)
Definition batch_result (env : Worker.CycleEnv) : Result (list json) :=
  if expired_token (fetch_result (Worker.fetch_reply env)) then
    match refresh_result (Worker.refresh_reply env) with
    | Done _ => fetch_result (Worker.refetch_reply env)
    | Raised e => Raised e
    end
  else fetch_result (Worker.fetch_reply env).

Definition batch_of (env : Worker.CycleEnv) : list json :=
  match batch_result env with
  | Done events => events
  | Raised _ => []
  end.

Definition answers (py : Text.Runtime) (webhook_url : option string)
    (webhook : nat -> Webhook.Request -> Reply) (events : list json) (i : nat) : Reply :=
  match events !! i with
  | Some event => slack_answer py webhook_url (webhook i) event
  | None => Raises TypeError
  end.

(** The cycle environment of the coarse model that a cycle with its webhook
    amounts to. *)
Definition coarse (py : Text.Runtime) (webhook_url : option string)
    (cycle : Worker.CycleEnv * (nat -> Webhook.Request -> Reply)) : Worker.CycleEnv :=
  Worker.mkCycleEnv
    (Worker.utcnow (fst cycle))
    (Worker.fetch_reply (fst cycle))
    (Worker.refresh_reply (fst cycle))
    (Worker.refetch_reply (fst cycle))
    (answers py webhook_url (snd cycle) (batch_of (fst cycle)))
    (Worker.sleep_reply (fst cycle)).

Fixpoint copies (c : ascii) (n : nat) : string :=
  match n with
  | O => EmptyString
  | S m => String c (copies c m)
  end.

(** The last character of [s] is [c]. *)
Fixpoint ends_with (c : ascii) (s : string) : bool :=
  match s with
  | EmptyString => false
  | String a EmptyString => Ascii.eqb a c
  | String _ rest => ends_with c rest
  end.

(** The text the fields add to the fallback. *)
Fixpoint fields_text (fields : list Webhook.Field) : string :=
  match fields with
  | [] => EmptyString
  | field :: rest => " - " +:+ Webhook.field_value field +:+ fields_text rest
  end.

(** The ledger holds exactly the identifiers [post_slack] was called for. *)
Definition ledger_tight (s : State) : Prop :=
  forall k, forwards k (trace s) = if decide (k ∈ seen s) then 1 else 0.

(** A request made through the worker's session names the bot. *)
Definition carries_agent (a : Action) : bool :=
  match a with
  | SessionGet _ h | SessionPost _ h _ =>
      bool_decide (h !! "User-Agent" = Some Worker.user_agent)
  | _ => true
  end.

Definition agent_kept (s : State) : Prop :=
  headers s !! "User-Agent" = Some Worker.user_agent /\
  Forall (fun a => carries_agent a = true) (trace s).

(** ** Running the primitives *)

Lemma count_app p (a b : list Action) : count p (a ++ b) = count p a + count p b.
Proof. unfold count. rewrite List.filter_app, length_app. reflexivity. Qed.

Lemma forwarded_app (a b : list Action) : forwarded (a ++ b) = forwarded a ++ forwarded b.
Proof.
  induction a as [|x a IH]; simpl; [reflexivity|].
  destruct x; simpl; rewrite ?IH; reflexivity.
Qed.

Lemma since_values_app (a b : list Action) :
  since_values (a ++ b) = since_values a ++ since_values b.
Proof.
  induction a as [|x a IH]; simpl; [reflexivity|].
  destruct x; simpl; rewrite ?IH; reflexivity.
Qed.

Lemma sent_messages_app (a b : list Action) :
  sent_messages (a ++ b) = sent_messages a ++ sent_messages b.
Proof.
  induction a as [|x a IH]; simpl; [reflexivity|].
  destruct x; simpl; rewrite ?IH; reflexivity.
Qed.

Lemma session_post_run url since reply s :
  session_post url since reply s =
  (reply_result reply, push (SessionPost url (headers s) since) s).
Proof. destruct reply; reflexivity. Qed.

Lemma session_get_run url reply s :
  session_get url reply s = (reply_result reply, push (SessionGet url (headers s)) s).
Proof. destruct reply; reflexivity. Qed.

Ltac run_result :=
  repeat match goal with
         | |- context [match ?r with Done _ => _ | Raised _ => _ end] =>
             destruct r; simpl; try reflexivity
         end.

Lemma worker_fetch_run reply since s :
  Worker.fetch_hacktivity reply since s =
  (fetch_result reply, push (SessionPost graphql_url (headers s) since) s).
Proof.
  unfold Worker.fetch_hacktivity, fetch_result, bind, lift.
  rewrite session_post_run.
  destruct (reply_result reply) as [response|e]; simpl; [|reflexivity].
  run_result.
Qed.

Lemma poll_fetch_run reply since s :
  Poll.fetch_hacktivity reply since s =
  (poll_fetch_result reply, push (SessionPost graphql_url (headers s) since) s).
Proof.
  unfold Poll.fetch_hacktivity, poll_fetch_result, bind, lift.
  rewrite session_post_run.
  destruct (reply_result reply) as [response|e]; simpl; [|reflexivity].
  run_result.
Qed.

Lemma worker_refresh_run reply s : Worker.refresh_csrf reply s = refreshed reply s.
Proof.
  unfold Worker.refresh_csrf, refreshed, refresh_result, bind, lift.
  rewrite session_get_run.
  destruct (reply_result reply) as [response|e]; simpl; [|reflexivity].
  run_result.
Qed.

Lemma poll_refresh_run reply s : Poll.refresh_csrf reply s = refreshed reply s.
Proof.
  unfold Poll.refresh_csrf, refreshed, refresh_result, bind, lift.
  rewrite session_get_run.
  destruct (reply_result reply) as [response|e]; simpl; [|reflexivity].
  run_result.
Qed.

Lemma post_slack_run reply payload s :
  Worker.post_slack reply payload s = (forward_result reply, push (CallPostSlack payload) s).
Proof.
  unfold Worker.post_slack, forward_result, bind, lift, await.
  destruct reply as [response|e]; simpl; [|reflexivity].
  destruct (raise_for_status response); reflexivity.
Qed.

Lemma process_event_run reply event s :
  Worker.process_event reply event s = processed reply event s.
Proof.
  unfold Worker.process_event, processed, event_id, bind, lift, get_seen.
  destruct (getitem event "report") as [report|e]; simpl; [|reflexivity].
  destruct (getitem report "_id") as [report_id|e]; simpl; [|reflexivity].
  destruct (hash_key report_id) as [k|e]; simpl; [|reflexivity].
  destruct (decide (k ∈ seen s)); [reflexivity|].
  unfold seen_add, emit; simpl. rewrite post_slack_run. reflexivity.
Qed.

Lemma fetch_events_run env since s : Worker.fetch_events env since s = fetched env since s.
Proof.
  unfold Worker.fetch_events, try_except_HTTPError, fetched.
  rewrite worker_fetch_run.
  destruct (fetch_result (Worker.fetch_reply env)) as [events|e]; simpl; [reflexivity|].
  destruct e; simpl; try reflexivity.
  destruct (status_code response =? 500)%Z; simpl; [|reflexivity].
  destruct (contains Worker.marker (text response)); simpl; [|reflexivity].
  unfold bind, emit; simpl. rewrite worker_refresh_run.
  unfold push; simpl.
  destruct (refreshed (Worker.refresh_reply env) _) as [[[]|e] s3]; [|reflexivity].
  rewrite worker_fetch_run. reflexivity.
Qed.

Lemma cycle_run env s :
  Worker.cycle env s =
  match fetched env (Worker.utcnow env - minutes 15) s with
  | (Done events, s1) => Worker.for_each_event (Worker.slack_reply env) 0 events s1
  | (Raised e, s1) => (Raised e, s1)
  end.
Proof. unfold Worker.cycle, bind. rewrite fetch_events_run. reflexivity. Qed.

Lemma for_each_cons slack i event rest s :
  Worker.for_each_event slack i (event :: rest) s =
  match processed (slack i) event s with
  | (Done _, s1) => Worker.for_each_event slack (S i) rest s1
  | (Raised e, s1) => (Raised e, s1)
  end.
Proof. simpl. unfold bind. rewrite process_event_run. reflexivity. Qed.

Lemma main_loop_cons env rest s :
  Worker.main_loop (env :: rest) s =
  match Worker.cycle env s with
  | (Raised KeyboardInterrupt, s1) => (Worker.Broke, s1)
  | _ =>
      match Worker.sleep_reply env with
      | None => Worker.main_loop rest (after_cycle env s)
      | Some e => (Worker.Escaped e, after_cycle env s)
      end
  end.
Proof.
  simpl. unfold after_cycle.
  destruct (Worker.cycle env s) as [[[]|e] s1]; simpl.
  - destruct (Worker.sleep_reply env); reflexivity.
  - destruct e; destruct (Worker.sleep_reply env); reflexivity.
Qed.

(** ** The loop over the batch touches only the ledger and the log *)

Lemma loop_action_quiet new :
  Forall loop_action new ->
  refreshes new = 0 /\ fetches new = 0 /\ sleeps new = 0 /\ since_values new = [].
Proof.
  induction 1 as [|a new Ha _ IH]; [repeat split; reflexivity|].
  destruct IH as (Hr & Hf & Hs & Hv).
  unfold refreshes, fetches, sleeps, count in *.
  destruct a as [| | | |[]|]; simpl in *; try contradiction; auto.
Qed.

Lemma processed_extends reply event s :
  loop_extends s (snd (processed reply event s)).
Proof.
  unfold processed, loop_extends.
  destruct (event_id event) as [k|e]; simpl.
  - destruct (decide (k ∈ seen s)); simpl.
    + repeat split; [set_solver|]. exists [Log (Ignoring k)]. split; [reflexivity|].
      repeat constructor.
    + repeat split; [set_solver|]. exists [Log (Posting k); CallPostSlack event].
      split; [rewrite <- app_assoc; reflexivity|]. repeat constructor.
  - repeat split; [set_solver|]. exists []. rewrite app_nil_r. split; [reflexivity|constructor].
Qed.

Lemma loop_extends_trans s1 s2 s3 :
  loop_extends s1 s2 -> loop_extends s2 s3 -> loop_extends s1 s3.
Proof.
  intros (Hh1 & Hs1 & n1 & Ht1 & Hn1) (Hh2 & Hs2 & n2 & Ht2 & Hn2).
  repeat split; [congruence|set_solver|].
  exists (n1 ++ n2). split; [rewrite Ht2, Ht1, app_assoc; reflexivity|].
  apply Forall_app; split; assumption.
Qed.

Lemma for_each_extends slack events : forall i s,
  loop_extends s (snd (Worker.for_each_event slack i events s)).
Proof.
  induction events as [|event rest IH]; intros i s.
  - simpl. repeat split; [set_solver|]. exists []. rewrite app_nil_r. split; [reflexivity|constructor].
  - rewrite for_each_cons.
    pose proof (processed_extends (slack i) event s) as Hp.
    destruct (processed (slack i) event s) as [[[]|e] s1]; simpl in *; [|exact Hp].
    eapply loop_extends_trans; [exact Hp|apply IH].
Qed.

(** ** Once an identifier is in the ledger it is not forwarded again *)

Lemma forwards_snoc k tr a :
  forwards k (tr ++ [a]) = forwards k tr + (if is_forward_of k a then 1 else 0).
Proof.
  unfold forwards. rewrite count_app. unfold count; simpl.
  destruct (is_forward_of k a); reflexivity.
Qed.

Lemma processed_settled k reply event s :
  k ∈ seen s -> settled k s (snd (processed reply event s)).
Proof.
  intros Hk. unfold processed, settled.
  destruct (event_id event) as [k0|e] eqn:Hid; simpl; [|auto].
  destruct (decide (k0 ∈ seen s)); simpl.
  - rewrite forwards_snoc; simpl. split; [assumption|lia].
  - split; [set_solver|].
    rewrite !forwards_snoc; simpl. rewrite Hid.
    rewrite bool_decide_eq_false_2; [lia|]. intros ->. contradiction.
Qed.

Lemma settled_trans k s1 s2 s3 : settled k s1 s2 -> settled k s2 s3 -> settled k s1 s3.
Proof. unfold settled. intros [? ?] [? ?]. split; [assumption|congruence]. Qed.

Lemma for_each_settled k slack events : forall i s,
  k ∈ seen s -> settled k s (snd (Worker.for_each_event slack i events s)).
Proof.
  induction events as [|event rest IH]; intros i s Hk.
  - simpl. split; [assumption|reflexivity].
  - rewrite for_each_cons.
    pose proof (processed_settled k (slack i) event s Hk) as Hp.
    destruct (processed (slack i) event s) as [[[]|e] s1]; simpl in *; [|exact Hp].
    eapply settled_trans; [exact Hp|]. apply IH. apply Hp.
Qed.

Lemma push_settled k a s :
  k ∈ seen s -> is_forward_of k a = false -> settled k s (push a s).
Proof.
  intros Hk Ha. split; [assumption|]. simpl. rewrite forwards_snoc, Ha. lia.
Qed.

Lemma refreshed_shape reply s :
  let s' := snd (refreshed reply s) in
  seen s' = seen s /\ trace s' = trace s ++ [SessionGet landing_url (headers s)].
Proof. unfold refreshed. destruct (refresh_result reply); simpl; auto. Qed.

Lemma fetched_shape env since s :
  let s' := snd (fetched env since s) in
  seen s' = seen s /\
  exists new, trace s' = trace s ++ new /\
              forwarded new = [] /\ forall k, forwards k new = 0.
Proof.
  unfold fetched.
  destruct (expired_token (fetch_result (Worker.fetch_reply env))); simpl.
  - pose proof (refreshed_shape (Worker.refresh_reply env)
                  (push (Log CsrfTokenInvalid)
                     (push (SessionPost graphql_url (headers s) since) s))) as [Hs Ht].
    destruct (refreshed _ _) as [[[]|e] s3]; simpl in *.
    + split; [assumption|]. eexists. rewrite Ht, <- !app_assoc. split; [reflexivity|].
      split; [reflexivity|]. intros k. reflexivity.
    + split; [assumption|]. eexists. rewrite Ht, <- !app_assoc. split; [reflexivity|].
      split; [reflexivity|]. intros k. reflexivity.
  - split; [reflexivity|]. eexists. split; [reflexivity|]. split; [reflexivity|].
    intros k. reflexivity.
Qed.

Lemma fetched_settled k env since s :
  k ∈ seen s -> settled k s (snd (fetched env since s)).
Proof.
  intros Hk. destruct (fetched_shape env since s) as (Hs & new & Ht & _ & Hf).
  split; [rewrite Hs; assumption|].
  rewrite Ht. unfold forwards in *. rewrite count_app, Hf. lia.
Qed.

Lemma cycle_settled k env s : k ∈ seen s -> settled k s (snd (Worker.cycle env s)).
Proof.
  intros Hk. rewrite cycle_run.
  pose proof (fetched_settled k env (Worker.utcnow env - minutes 15) s Hk) as Hf.
  destruct (fetched env _ s) as [[events|e] s1]; simpl in *; [|exact Hf].
  eapply settled_trans; [exact Hf|]. apply for_each_settled, Hf.
Qed.

Lemma after_cycle_settled k env s : k ∈ seen s -> settled k s (after_cycle env s).
Proof.
  intros Hk. unfold after_cycle.
  pose proof (cycle_settled k env s Hk) as Hc.
  destruct (Worker.cycle env s) as [[[]|e] s1]; simpl in *.
  - eapply settled_trans; [exact Hc|]. apply push_settled; [apply Hc|reflexivity].
  - eapply settled_trans; [exact Hc|].
    assert (Hl : settled k s1 (push (Log (ExecutionFailed e)) s1))
      by (apply push_settled; [apply Hc|reflexivity]).
    eapply settled_trans; [exact Hl|]. apply push_settled; [apply Hl|reflexivity].
Qed.

Lemma main_loop_settled k envs : forall s,
  k ∈ seen s -> settled k s (snd (Worker.main_loop envs s)).
Proof.
  induction envs as [|env rest IH]; intros s Hk.
  - simpl. split; [assumption|reflexivity].
  - rewrite main_loop_cons.
    pose proof (cycle_settled k env s Hk) as Hc.
    pose proof (after_cycle_settled k env s Hk) as Ha.
    assert (Hrest : settled k s
              (snd match Worker.sleep_reply env with
                   | None => Worker.main_loop rest (after_cycle env s)
                   | Some e => (Worker.Escaped e, after_cycle env s)
                   end)).
    { destruct (Worker.sleep_reply env); simpl; [exact Ha|].
      eapply settled_trans; [exact Ha|]. apply IH, Ha. }
    destruct (Worker.cycle env s) as [[[]|e] s1]; simpl in *; [exact Hrest|].
    destruct e; simpl; try exact Hrest. exact Hc.
Qed.

(** ** The ledger and the forwarder *)

(** C1, as stated, fails: the worker puts the identifier in the ledger
    before it calls [post_slack].  Event X (identifier 1337) is fetched with
    an empty ledger and the webhook answers 503: the forward fails, the
    identifier is in the ledger afterwards, and when the next cycle fetches X
    again it is not forwarded again. *)
Lemma C1_counterexample :
  let env := Samples.plain_cycle 1000000000 [Samples.X] Samples.first_fails in
  let later := Samples.plain_cycle 1060000000 [Samples.X] Samples.all_ok in
  let after := Worker.cycle env Worker.init in
  event_id Samples.X = Done (KStr "1337") /\
  (KStr "1337" ∉ seen Worker.init) /\
  fst after = Raised (HTTPError Samples.slack_down) /\
  forwarded (trace (snd after)) = [Samples.X] /\
  KStr "1337" ∈ seen (snd after) /\
  forwarded (trace (snd (Worker.main [env; later]))) = [Samples.X].
Proof.
  repeat split; try (vm_compute; reflexivity); compute_done.
Qed.

(** C1, amended: for every fetched event whose identifier is not yet in
    the ledger, the ledger is updated before the forward operation is
    called.  Whether the forward succeeds or fails, the identifier is in the
    ledger afterwards, [post_slack] has been called once for it, and no later
    cycle forwards that identifier again. *)
Theorem C1_ledger_updated_before_forward :
  forall (reply : Reply) (event : json) (k : Key) (s : State),
    event_id event = Done k ->
    k ∉ seen s ->
    let s' := snd (Worker.process_event reply event s) in
    fst (Worker.process_event reply event s) = forward_result reply /\
    seen s' = {[k]} ∪ seen s /\
    trace s' = trace s ++ [Log (Posting k); CallPostSlack event] /\
    forwards k (trace s') = forwards k (trace s) + 1 /\
    forall envs : list Worker.CycleEnv,
      k ∈ seen (snd (Worker.main_loop envs s')) /\
      forwards k (trace (snd (Worker.main_loop envs s'))) = forwards k (trace s').
Proof.
  intros reply event k s Hid Hk. rewrite process_event_run. unfold processed.
  rewrite Hid. destruct (decide (k ∈ seen s)); [contradiction|]. simpl.
  repeat split.
  - rewrite <- app_assoc. reflexivity.
  - rewrite !forwards_snoc. simpl. rewrite Hid, bool_decide_eq_true_2; [lia|reflexivity].
  - apply main_loop_settled. simpl. set_solver.
  - apply main_loop_settled. simpl. set_solver.
Qed.

Lemma C1_ledger_updated_before_forward_witness :
  event_id Samples.X = Done (KStr "1337") /\
  (KStr "1337" ∉ seen Worker.init) /\
  let s' := snd (Worker.process_event (Returns Samples.slack_down) Samples.X Worker.init) in
  fst (Worker.process_event (Returns Samples.slack_down) Samples.X Worker.init)
    = forward_result (Returns Samples.slack_down) /\
  seen s' = {[KStr "1337"]} ∪ seen Worker.init /\
  trace s' = trace Worker.init ++ [Log (Posting (KStr "1337")); CallPostSlack Samples.X] /\
  forwards (KStr "1337") (trace s') = forwards (KStr "1337") (trace Worker.init) + 1 /\
  forall envs : list Worker.CycleEnv,
    KStr "1337" ∈ seen (snd (Worker.main_loop envs s')) /\
    forwards (KStr "1337") (trace (snd (Worker.main_loop envs s')))
      = forwards (KStr "1337") (trace s').
Proof.
  split; [reflexivity|]. split; [compute_done|].
  apply (C1_ledger_updated_before_forward
           (Returns Samples.slack_down) Samples.X (KStr "1337") Worker.init).
  - reflexivity.
  - compute_done.
Defined.

(** ** Every identifier is forwarded at most once *)

Lemma covers_extend s s' :
  seen s ⊆ seen s' ->
  (exists new, trace s' = trace s ++ new /\ forall k, forwards k new = 0) ->
  ledger_covers s -> ledger_covers s'.
Proof.
  intros Hs (new & Ht & Hn) Hc k. destruct (Hc k) as [H1 H0].
  rewrite Ht. unfold forwards in *. rewrite count_app, Hn.
  split; [lia|]. intros Hk. rewrite H0; [reflexivity|]. set_solver.
Qed.

Lemma push_covers a s :
  (forall k, is_forward_of k a = false) -> ledger_covers s -> ledger_covers (push a s).
Proof.
  intros Ha. apply covers_extend; [reflexivity|].
  exists [a]. split; [reflexivity|]. intros k. unfold forwards, count; simpl.
  rewrite Ha. reflexivity.
Qed.

Lemma processed_covers reply event s :
  ledger_covers s -> ledger_covers (snd (processed reply event s)).
Proof.
  intros Hc. unfold processed.
  destruct (event_id event) as [k0|e] eqn:Hid; simpl; [|exact Hc].
  destruct (decide (k0 ∈ seen s)) as [Hin|Hout]; simpl.
  - apply push_covers; [reflexivity|exact Hc].
  - intros k. destruct (Hc k) as [H1 H0]. simpl.
    rewrite !forwards_snoc. simpl. rewrite Hid.
    destruct (decide (k0 = k)) as [->|Hne].
    + rewrite bool_decide_eq_true_2 by reflexivity. rewrite (H0 Hout).
      split; [lia|]. intros Hk. exfalso. apply Hk. set_solver.
    + rewrite bool_decide_eq_false_2 by assumption.
      split; [lia|]. intros Hk. rewrite H0; [reflexivity|]. set_solver.
Qed.

Lemma for_each_covers slack events : forall i s,
  ledger_covers s -> ledger_covers (snd (Worker.for_each_event slack i events s)).
Proof.
  induction events as [|event rest IH]; intros i s Hc; [exact Hc|].
  rewrite for_each_cons.
  pose proof (processed_covers (slack i) event s Hc) as Hp.
  destruct (processed (slack i) event s) as [[[]|e] s1]; simpl in *; [|exact Hp].
  apply IH, Hp.
Qed.

Lemma cycle_covers env s : ledger_covers s -> ledger_covers (snd (Worker.cycle env s)).
Proof.
  intros Hc. rewrite cycle_run.
  destruct (fetched_shape env (Worker.utcnow env - minutes 15) s) as (Hs & new & Ht & _ & Hn).
  assert (Hf : ledger_covers (snd (fetched env (Worker.utcnow env - minutes 15) s))).
  { apply (covers_extend s); [rewrite Hs; reflexivity| |exact Hc]. exists new. auto. }
  destruct (fetched env _ s) as [[events|e] s1]; simpl in *; [|exact Hf].
  apply for_each_covers, Hf.
Qed.

Lemma after_cycle_covers env s : ledger_covers s -> ledger_covers (after_cycle env s).
Proof.
  intros Hc. unfold after_cycle. pose proof (cycle_covers env s Hc) as H.
  destruct (Worker.cycle env s) as [[[]|e] s1]; simpl in *.
  - apply push_covers; [reflexivity|exact H].
  - apply push_covers; [reflexivity|]. apply push_covers; [reflexivity|exact H].
Qed.

Lemma main_loop_covers envs : forall s,
  ledger_covers s -> ledger_covers (snd (Worker.main_loop envs s)).
Proof.
  induction envs as [|env rest IH]; intros s Hc; [exact Hc|].
  rewrite main_loop_cons.
  pose proof (cycle_covers env s Hc) as Hcy.
  pose proof (after_cycle_covers env s Hc) as Ha.
  assert (Hrest : ledger_covers
            (snd match Worker.sleep_reply env with
                 | None => Worker.main_loop rest (after_cycle env s)
                 | Some e => (Worker.Escaped e, after_cycle env s)
                 end)).
  { destruct (Worker.sleep_reply env); simpl; [exact Ha|]. apply IH, Ha. }
  destruct (Worker.cycle env s) as [[[]|e] s1]; simpl in *; [exact Hrest|].
  destruct e; simpl; try exact Hrest. exact Hcy.
Qed.

Lemma init_covers : ledger_covers Worker.init.
Proof. intros k. split; [unfold forwards, count; simpl; lia|reflexivity]. Qed.

(** C2: in every run of the worker, whatever the fetches return and
    whatever the forwards answer, [post_slack] is called at most once for each
    event identifier over all the polling cycles of the process; in
    particular when its first call succeeded. *)
Theorem C2_forward_at_most_once :
  forall (envs : list Worker.CycleEnv) (k : Key),
    forwards k (trace (snd (Worker.main envs))) <= 1.
Proof.
  intros envs k. unfold Worker.main.
  apply (main_loop_covers envs Worker.init init_covers k).
Qed.

(** ** A failure inside the batch *)

Lemma for_each_app slack pre : forall post i s,
  Worker.for_each_event slack i (pre ++ post) s =
  match Worker.for_each_event slack i pre s with
  | (Done _, s1) => Worker.for_each_event slack (i + length pre) post s1
  | (Raised e, s1) => (Raised e, s1)
  end.
Proof.
  induction pre as [|event pre IH]; intros post i s.
  - simpl. rewrite Nat.add_0_r. reflexivity.
  - rewrite <- app_comm_cons, !for_each_cons.
    destruct (processed (slack i) event s) as [[[]|e] s1]; [|reflexivity].
    rewrite IH. simpl length. rewrite Nat.add_succ_r. reflexivity.
Qed.

(** C3, as stated, fails: the loop over the batch has no handler of its
    own.  With the batch [X; Y; Z] and a webhook that answers 503 to the
    forward of X, the exception leaves the loop: Y and Z are neither forwarded
    nor entered in the ledger in that cycle. *)
Lemma C3_counterexample :
  let env := Samples.plain_cycle 1000000000
               [Samples.X; Samples.Y; Samples.Z'] Samples.first_fails in
  let after := Worker.cycle env Worker.init in
  fst after = Raised (HTTPError Samples.slack_down) /\
  forwarded (trace (snd after)) = [Samples.X] /\
  elements (seen (snd after)) = [KStr "1337"] /\
  event_id Samples.Y = Done (KStr "1338") /\
  event_id Samples.Z' = Done (KStr "1339").
Proof. repeat split; vm_compute; reflexivity. Qed.

(** C3, amended: within a single processing cycle of the worker over a
    fetched batch, a forward failure (or any other error) while processing one
    event ends the cycle there: the events before it have been processed, the
    remaining events of the batch are not processed in that cycle, and the
    cycle fails with that error in the state the failing event left. *)
Theorem C3_failure_ends_the_batch :
  forall (env : Worker.CycleEnv) (pre post : list json) (event : json)
         (s s0 s1 s2 : State) (e : exn),
    Worker.fetch_events env (Worker.utcnow env - minutes 15) s
      = (Done (pre ++ event :: post), s0) ->
    Worker.for_each_event (Worker.slack_reply env) 0 pre s0 = (Done tt, s1) ->
    Worker.process_event (Worker.slack_reply env (length pre)) event s1 = (Raised e, s2) ->
    Worker.for_each_event (Worker.slack_reply env) 0 (pre ++ event :: post) s0
      = (Raised e, s2) /\
    Worker.cycle env s = (Raised e, s2).
Proof.
  intros env pre post event s s0 s1 s2 e Hfetch Hpre Hevent.
  assert (Hloop : Worker.for_each_event (Worker.slack_reply env) 0
                    (pre ++ event :: post) s0 = (Raised e, s2)).
  { rewrite for_each_app, Hpre. simpl. unfold bind. rewrite Hevent. reflexivity. }
  split; [exact Hloop|].
  unfold Worker.cycle, bind. rewrite Hfetch. exact Hloop.
Qed.

Lemma C3_failure_ends_the_batch_witness :
  let env := Samples.plain_cycle 1000000000
               [Samples.X; Samples.Y; Samples.Z'] Samples.second_fails in
  let failure := HTTPError Samples.slack_down in
  let s0 := snd (Worker.fetch_events env (Worker.utcnow env - minutes 15) Worker.init) in
  let s1 := snd (Worker.for_each_event (Worker.slack_reply env) 0 [Samples.X] s0) in
  let s2 := snd (Worker.process_event (Worker.slack_reply env 1) Samples.Y s1) in
  Worker.fetch_events env (Worker.utcnow env - minutes 15) Worker.init
    = (Done ([Samples.X] ++ Samples.Y :: [Samples.Z']), s0) /\
  Worker.for_each_event (Worker.slack_reply env) 0 [Samples.X] s0 = (Done tt, s1) /\
  Worker.process_event (Worker.slack_reply env 1) Samples.Y s1 = (Raised failure, s2) /\
  Worker.for_each_event (Worker.slack_reply env) 0
    ([Samples.X] ++ Samples.Y :: [Samples.Z']) s0 = (Raised failure, s2) /\
  Worker.cycle env Worker.init = (Raised failure, s2).
Proof.
  assert (H0 : Worker.fetch_events
                 (Samples.plain_cycle 1000000000
                    [Samples.X; Samples.Y; Samples.Z'] Samples.second_fails)
                 (1000000000 - minutes 15) Worker.init
               = (Done ([Samples.X] ++ Samples.Y :: [Samples.Z']),
                  snd (Worker.fetch_events
                         (Samples.plain_cycle 1000000000
                            [Samples.X; Samples.Y; Samples.Z'] Samples.second_fails)
                         (1000000000 - minutes 15) Worker.init)))
    by (vm_compute; reflexivity).
  split; [exact H0|].
  split; [vm_compute; reflexivity|].
  split; [vm_compute; reflexivity|].
  eapply (C3_failure_ends_the_batch
           (Samples.plain_cycle 1000000000
              [Samples.X; Samples.Y; Samples.Z'] Samples.second_fails)
           [Samples.X] [Samples.Z'] Samples.Y Worker.init).
  - exact H0.
  - vm_compute; reflexivity.
  - vm_compute; reflexivity.
Defined.

(** ** The retry policy of the fetch *)

Lemma for_each_quiet slack events i s :
  let s' := snd (Worker.for_each_event slack i events s) in
  headers s' = headers s /\
  refreshes (trace s') = refreshes (trace s) /\
  fetches (trace s') = fetches (trace s) /\
  sleeps (trace s') = sleeps (trace s) /\
  since_values (trace s') = since_values (trace s).
Proof.
  destruct (for_each_extends slack events i s) as (Hh & _ & new & Ht & Hnew).
  destruct (loop_action_quiet new Hnew) as (Hr & Hf & Hs & Hv).
  simpl. rewrite Ht. unfold refreshes, fetches, sleeps in *.
  rewrite !count_app, since_values_app, Hr, Hf, Hs, Hv, app_nil_r.
  repeat split; try lia. exact Hh.
Qed.

Ltac count_simpl :=
  unfold refreshes, fetches, sleeps; rewrite ?count_app; unfold count; simpl.

(** C4, as stated, fails in one direction: the failure is an HTTP error
    with status 500 whose body contains the marker, the token refresh is
    attempted once, the landing page answers 503, and the cycle ends with no
    re-fetch. *)
Lemma C4_counterexample :
  let env := Samples.retry_cycle
               (Returns (Samples.error_response 500 Samples.standard_error_body))
               (Returns (Samples.page_without_token 503))
               (Returns (Samples.nodes_response [Samples.X])) in
  let first := Worker.fetch_hacktivity (Worker.fetch_reply env)
                 (Worker.utcnow env - minutes 15) Worker.init in
  let final := Worker.cycle env Worker.init in
  expired_token (fst first) = true /\
  refreshes (trace (snd final)) = 1 /\
  fetches (trace (snd final)) = 1 /\
  fst final = Raised (HTTPError (Samples.page_without_token 503)).
Proof. repeat split; vm_compute; reflexivity. Qed.

(** C4, amended: a failed fetch in the worker triggers exactly one token
    refresh if and only if the failure is an HTTP error with status exactly 500
    whose response body contains the marker ["STANDARD_ERROR"]; the refresh
    comes after the failed fetch and, when it succeeds, is followed by exactly
    one re-fetch, while a refresh that fails ends the cycle with no re-fetch.
    Any other failing status/body combination triggers no refresh and ends the
    cycle immediately, and a second failure after the single retry also ends
    the cycle. *)
Theorem C4_single_refresh_and_retry :
  forall (env : Worker.CycleEnv) (s : State),
    let since := (Worker.utcnow env - minutes 15)%Z in
    let first := Worker.fetch_hacktivity (Worker.fetch_reply env) since s in
    let refresh := Worker.refresh_csrf (Worker.refresh_reply env) s in
    let second := Worker.fetch_hacktivity (Worker.refetch_reply env) since s in
    let final := Worker.cycle env s in
    let expired := expired_token (fst first) in
    refreshes (trace (snd final)) = refreshes (trace s) + (if expired then 1 else 0) /\
    fetches (trace (snd final)) =
      fetches (trace s) + (if expired && is_done (fst refresh) then 2 else 1) /\
    if expired then
      (exists rest,
         trace (snd final) =
         trace s ++ SessionPost graphql_url (headers s) since
                 :: Log CsrfTokenInvalid
                 :: SessionGet landing_url (headers s) :: rest) /\
      match fst refresh with
      | Raised e => fst final = Raised e
      | Done _ =>
          match fst second with
          | Raised e =>
              fst final = Raised e /\ forwarded (trace (snd final)) = forwarded (trace s)
          | Done _ => True
          end
      end
    else
      match fst first with
      | Raised e => final = (Raised e, snd first)
      | Done _ => True
      end.
Proof.
  intros env s. cbv zeta.
  rewrite cycle_run, !worker_fetch_run, worker_refresh_run. simpl fst. simpl snd.
  unfold fetched.
  destruct (expired_token (fetch_result (Worker.fetch_reply env))) eqn:Hexp.
  - unfold refreshed.
    destruct (refresh_result (Worker.refresh_reply env)) as [token|e]; simpl.
    + destruct (fetch_result (Worker.refetch_reply env)) as [events|e2]; simpl.
      * match goal with
        | |- context [Worker.for_each_event ?sl ?i ?ev ?st] =>
            destruct (for_each_quiet sl ev i st) as (_ & Hr & Hf & _ & _);
            destruct (for_each_extends sl ev i st) as (_ & _ & new & Ht & _)
        end.
        rewrite Hr, Hf. simpl. count_simpl.
        repeat split; try lia.
        exists (SessionPost graphql_url (<["x-csrf-token":=token]> (headers s))
                  (Worker.utcnow env - minutes 15) :: new).
        rewrite Ht. simpl. rewrite <- !app_assoc. reflexivity.
      * rewrite !forwarded_app. count_simpl.
        rewrite !app_nil_r.
        repeat split; try lia.
        eexists. rewrite <- !app_assoc. reflexivity.
    + count_simpl.
      repeat split; try lia.
      exists []. rewrite <- !app_assoc. reflexivity.
  - destruct (fetch_result (Worker.fetch_reply env)) as [events|e]; simpl.
    + match goal with
      | |- context [Worker.for_each_event ?sl ?i ?ev ?st] =>
          destruct (for_each_quiet sl ev i st) as (_ & Hr & Hf & _ & _)
      end.
      rewrite Hr, Hf. simpl. count_simpl.
      repeat split; lia.
    + count_simpl.
      repeat split; lia.
Qed.

(** ** The filter on the discriminator *)

Lemma is_disclosed_run node :
  Worker.is_disclosed node =
  match getitem node "__typename" with
  | Done _ => Done (disclosed node)
  | Raised e => Raised e
  end.
Proof.
  unfold Worker.is_disclosed, disclosed.
  destruct (getitem node "__typename"); reflexivity.
Qed.

Lemma py_filter_disclosed nodes : forall kept,
  py_filter Worker.is_disclosed nodes = Done kept -> kept = List.filter disclosed nodes.
Proof.
  induction nodes as [|node rest IH]; intros kept H; simpl in *; [congruence|].
  rewrite is_disclosed_run in H.
  destruct (getitem node "__typename") as [t|e]; simpl in H; [|discriminate].
  destruct (py_filter Worker.is_disclosed rest) as [kept'|e]; simpl in H; [|discriminate].
  rewrite <- (IH kept' eq_refl). destruct (disclosed node); congruence.
Qed.

Lemma py_filter_total nodes :
  Forall (fun node => is_done (getitem node "__typename") = true) nodes ->
  py_filter Worker.is_disclosed nodes = Done (List.filter disclosed nodes).
Proof.
  induction 1 as [|node rest Hn _ IH]; simpl; [reflexivity|].
  rewrite is_disclosed_run, IH.
  destruct (getitem node "__typename") as [t|e]; simpl in *; [|discriminate].
  destruct (disclosed node); reflexivity.
Qed.

(** Whatever the fetch of the worker returns is the list of the nodes whose
    discriminator is "Disclosed", in the order of the response. *)
Lemma worker_fetch_returns_disclosed reply since s response body data items nodes kept :
  reply = Returns response ->
  json_body response = Some body ->
  getitem body "data" = Done data ->
  getitem data "hacktivity_items" = Done items ->
  getitem items "nodes" = Done (JArr nodes) ->
  fst (Worker.fetch_hacktivity reply since s) = Done kept ->
  kept = List.filter disclosed nodes.
Proof.
  intros -> Hbody Hdata Hitems Hnodes.
  rewrite worker_fetch_run. simpl. unfold fetch_result, response_json. simpl.
  destruct (raise_for_status response); simpl; [|discriminate].
  rewrite Hbody. simpl. rewrite Hdata. simpl. rewrite Hitems. simpl.
  rewrite Hnodes. simpl. apply py_filter_disclosed.
Qed.

(** It returns that list whenever the status is no error and every node has
    a discriminator. *)
Lemma worker_fetch_keeps_disclosed reply since s response body data items nodes :
  reply = Returns response ->
  raise_for_status response = Done tt ->
  json_body response = Some body ->
  getitem body "data" = Done data ->
  getitem data "hacktivity_items" = Done items ->
  getitem items "nodes" = Done (JArr nodes) ->
  Forall (fun node => is_done (getitem node "__typename") = true) nodes ->
  fst (Worker.fetch_hacktivity reply since s) = Done (List.filter disclosed nodes).
Proof.
  intros -> Hst Hbody Hdata Hitems Hnodes Hall.
  rewrite worker_fetch_run. simpl. unfold fetch_result, response_json. simpl.
  rewrite Hst. simpl. rewrite Hbody. simpl. rewrite Hdata. simpl. rewrite Hitems. simpl.
  rewrite Hnodes. simpl. apply py_filter_total, Hall.
Qed.

(** C5: the fetch of the poll lambda applies no filter.  For a response
    whose nodes are [X; other; Y], with discriminators "Disclosed", "Other",
    "Disclosed", the worker's fetch returns [X; Y], while the poll lambda's
    fetch returns all three nodes and its handler hands all three to the
    queue. *)
Lemma C5_poll_fetch_keeps_other_nodes :
  let reply := Returns (Samples.nodes_response [Samples.X; Samples.other; Samples.Y]) in
  let env := Poll.mkInvocationEnv 1000000000
               (Returns (Samples.landing_page 200 "tok")) reply (fun _ => None) in
  getitem Samples.other "__typename" = Done (JStr "Other") /\
  fst (Worker.fetch_hacktivity reply 0 Worker.init) = Done [Samples.X; Samples.Y] /\
  fst (Poll.fetch_hacktivity reply 0 Poll.init)
    = Done (JArr [Samples.X; Samples.other; Samples.Y]) /\
  sent_messages (trace (snd (Poll.lambda_handler env Poll.init)))
    = [(Samples.X, JStr "1337", "hacktivity");
       (Samples.other, JStr "7", "hacktivity");
       (Samples.Y, JStr "1338", "hacktivity")].
Proof. repeat split; vm_compute; reflexivity. Qed.

(** ** Running the poll lambda *)

Lemma poll_for_each_run sqs events : forall i s,
  Poll.for_each_event sqs i events s =
  (fst (queued sqs i events),
   mkState (headers s) (seen s) (trace s ++ snd (queued sqs i events))).
Proof.
  induction events as [|event rest IH]; intros i s; simpl.
  - rewrite app_nil_r. destruct s; reflexivity.
  - unfold bind, Poll.send_message, lift, bind, emit.
    destruct (Poll.deduplication_id event) as [id|e]; simpl.
    + destruct (sqs i) as [e|]; simpl; [reflexivity|].
      rewrite IH. simpl. rewrite <- app_assoc. reflexivity.
    + rewrite app_nil_r. destruct s; reflexivity.
Qed.

Lemma lambda_handler_run env s : Poll.lambda_handler env s = invoked env s.
Proof.
  unfold Poll.lambda_handler, invoked, bind, Poll.new_session.
  rewrite poll_refresh_run.
  destruct (refreshed (Poll.refresh_reply env) _) as [[[]|e] s1]; [|reflexivity].
  rewrite poll_fetch_run. unfold lift.
  destruct (poll_fetch_result (Poll.fetch_reply env)) as [nodes|e]; simpl; [|reflexivity].
  destruct (iterate nodes) as [events|e]; simpl; [|reflexivity].
  rewrite poll_for_each_run. reflexivity.
Qed.

Lemma queued_quiet sqs events : forall i,
  since_values (snd (queued sqs i events)) = [] /\
  refreshes (snd (queued sqs i events)) = 0 /\
  fetches (snd (queued sqs i events)) = 0.
Proof.
  induction events as [|event rest IH]; intros i; simpl; [auto|].
  destruct (Poll.deduplication_id event) as [id|e]; simpl; [|auto].
  destruct (sqs i) as [e|]; simpl; [auto|]. apply IH.
Qed.

(** ** The window of each fetch *)

Lemma cycle_since env s :
  exists n, 1 <= n <= 2 /\
    since_values (trace (snd (Worker.cycle env s))) =
    since_values (trace s) ++ repeat (Worker.utcnow env - minutes 15)%Z n.
Proof.
  rewrite cycle_run. unfold fetched.
  destruct (expired_token (fetch_result (Worker.fetch_reply env))).
  - unfold refreshed.
    destruct (refresh_result (Worker.refresh_reply env)) as [token|e]; simpl.
    + exists 2. split; [lia|].
      destruct (fetch_result (Worker.refetch_reply env)) as [events|e]; simpl.
      * match goal with
        | |- context [Worker.for_each_event ?sl ?i ?ev ?st] =>
            destruct (for_each_quiet sl ev i st) as (_ & _ & _ & _ & Hv)
        end.
        rewrite Hv. simpl. rewrite !since_values_app, <- !app_assoc. reflexivity.
      * rewrite !since_values_app, <- !app_assoc. reflexivity.
    + exists 1. split; [lia|]. rewrite !since_values_app, <- !app_assoc. reflexivity.
  - exists 1. split; [lia|].
    destruct (fetch_result (Worker.fetch_reply env)) as [events|e]; simpl.
    + match goal with
      | |- context [Worker.for_each_event ?sl ?i ?ev ?st] =>
          destruct (for_each_quiet sl ev i st) as (_ & _ & _ & _ & Hv)
      end.
      rewrite Hv. simpl. rewrite !since_values_app. reflexivity.
    + rewrite !since_values_app. reflexivity.
Qed.

Lemma after_cycle_since env s :
  since_values (trace (after_cycle env s)) = since_values (trace (snd (Worker.cycle env s))).
Proof.
  unfold after_cycle. destruct (Worker.cycle env s) as [[[]|e] s1]; simpl;
    rewrite !since_values_app; simpl; rewrite ?app_nil_r; reflexivity.
Qed.

Lemma main_loop_one_since env s :
  since_values (trace (snd (Worker.main_loop [env] s)))
  = since_values (trace (snd (Worker.cycle env s))).
Proof.
  rewrite main_loop_cons. pose proof (after_cycle_since env s) as Ha.
  destruct (Worker.cycle env s) as [[[]|e] s1]; simpl in *.
  - destruct (Worker.sleep_reply env); simpl; exact Ha.
  - destruct e; try (destruct (Worker.sleep_reply env); simpl; exact Ha). reflexivity.
Qed.

Lemma main_loop_next env rest s :
  fst (Worker.main_loop [env] s) = Worker.Looping ->
  Worker.main_loop (env :: rest) s = Worker.main_loop rest (after_cycle env s).
Proof.
  rewrite !main_loop_cons.
  destruct (Worker.cycle env s) as [[[]|e] s1]; simpl.
  - destruct (Worker.sleep_reply env); [discriminate|reflexivity].
  - destruct e; try (destruct (Worker.sleep_reply env); [discriminate|reflexivity]).
    discriminate.
Qed.

(** C6: each polling cycle computes the [since] value of its query from
    the clock reading of that cycle, as the current UTC time minus the
    lookback (15 minutes in the worker, 4 minutes in the poll lambda); the
    value is not fixed at process start, so two successive cycles whose clock
    readings increase send strictly increasing window starts. *)
Theorem C6_window_start_follows_the_clock :
  forall (e1 e2 : Worker.CycleEnv) (p1 p2 : Poll.InvocationEnv) (s : State),
    (Worker.utcnow e1 < Worker.utcnow e2)%Z ->
    (Poll.utcnow p1 < Poll.utcnow p2)%Z ->
    fst (Worker.main_loop [e1] s) = Worker.Looping ->
    (exists n1 n2, 1 <= n1 <= 2 /\ 1 <= n2 <= 2 /\
       since_values (trace (snd (Worker.main_loop [e1; e2] s))) =
       since_values (trace s)
         ++ repeat (Worker.utcnow e1 - 15 * 60 * 1000000)%Z n1
         ++ repeat (Worker.utcnow e2 - 15 * 60 * 1000000)%Z n2) /\
    (Worker.utcnow e1 - 15 * 60 * 1000000 < Worker.utcnow e2 - 15 * 60 * 1000000)%Z /\
    (forall p,
       since_values (trace (snd (Poll.lambda_handler p s))) =
       since_values (trace s)
         ++ (if is_done (fst (Poll.refresh_csrf (Poll.refresh_reply p) s))
             then [(Poll.utcnow p - 4 * 60 * 1000000)%Z] else [])) /\
    (Poll.utcnow p1 - 4 * 60 * 1000000 < Poll.utcnow p2 - 4 * 60 * 1000000)%Z.
Proof.
  intros e1 e2 p1 p2 s Hw Hp Hloop.
  split; [|split; [lia|split; [|lia]]].
  - rewrite (main_loop_next e1 [e2] s Hloop), main_loop_one_since.
    destruct (cycle_since e2 (after_cycle e1 s)) as (n2 & Hn2 & H2).
    destruct (cycle_since e1 s) as (n1 & Hn1 & H1).
    exists n1, n2. split; [lia|]. split; [lia|].
    rewrite H2, after_cycle_since, H1, <- app_assoc. reflexivity.
  - intros p. rewrite lambda_handler_run, poll_refresh_run. unfold invoked, refreshed.
    destruct (refresh_result (Poll.refresh_reply p)) as [token|e]; simpl.
    + destruct (rbind (poll_fetch_result (Poll.fetch_reply p)) iterate) as [events|e]; simpl.
      * destruct (queued_quiet (Poll.sqs_reply p) events 0) as (Hv & _).
        rewrite !since_values_app, Hv. simpl. rewrite !app_nil_r. reflexivity.
      * rewrite !since_values_app. simpl. rewrite !app_nil_r. reflexivity.
    + rewrite !since_values_app. simpl. rewrite !app_nil_r. reflexivity.
Qed.

Lemma C6_window_start_follows_the_clock_witness :
  let e1 := Samples.plain_cycle 1000000000 [Samples.X] Samples.all_ok in
  let e2 := Samples.plain_cycle 1060000000 [Samples.X; Samples.Y] Samples.all_ok in
  let p1 := Poll.mkInvocationEnv 1000000000 (Returns (Samples.landing_page 200 "tok"))
              (Returns (Samples.nodes_response [Samples.X])) (fun _ => None) in
  let p2 := Poll.mkInvocationEnv 1060000000 (Returns (Samples.landing_page 200 "tok"))
              (Returns (Samples.nodes_response [Samples.X])) (fun _ => None) in
  (Worker.utcnow e1 < Worker.utcnow e2)%Z /\
  (Poll.utcnow p1 < Poll.utcnow p2)%Z /\
  fst (Worker.main_loop [e1] Worker.init) = Worker.Looping /\
  (exists n1 n2, 1 <= n1 <= 2 /\ 1 <= n2 <= 2 /\
     since_values (trace (snd (Worker.main_loop [e1; e2] Worker.init))) =
     since_values (trace Worker.init)
       ++ repeat (Worker.utcnow e1 - 15 * 60 * 1000000)%Z n1
       ++ repeat (Worker.utcnow e2 - 15 * 60 * 1000000)%Z n2) /\
  (Worker.utcnow e1 - 15 * 60 * 1000000 < Worker.utcnow e2 - 15 * 60 * 1000000)%Z.
Proof.
  split; [reflexivity|]. split; [reflexivity|]. split; [reflexivity|].
  pose proof (C6_window_start_follows_the_clock
                (Samples.plain_cycle 1000000000 [Samples.X] Samples.all_ok)
                (Samples.plain_cycle 1060000000 [Samples.X; Samples.Y] Samples.all_ok)
                (Poll.mkInvocationEnv 1000000000 (Returns (Samples.landing_page 200 "tok"))
                   (Returns (Samples.nodes_response [Samples.X])) (fun _ => None))
                (Poll.mkInvocationEnv 1060000000 (Returns (Samples.landing_page 200 "tok"))
                   (Returns (Samples.nodes_response [Samples.X])) (fun _ => None))
                Worker.init eq_refl eq_refl eq_refl) as (H1 & H2 & _).
  split; [exact H1|exact H2].
Defined.

(** ** Only a cancellation stops the loop *)

Lemma rbind_benign {A B : Type} (r : Result A) (k : A -> Result B) :
  benign r -> (forall a, benign (k a)) -> benign (rbind r k).
Proof.
  unfold benign. intros Hr Hk. destruct r as [a|e]; simpl; [apply Hk|].
  intros H. apply Hr. congruence.
Qed.

Lemma benign_raised {A B : Type} e : benign (@Raised A e) -> benign (@Raised B e).
Proof. unfold benign. intros H H'. apply H. congruence. Qed.

Lemma getitem_benign o k : benign (getitem o k).
Proof.
  unfold benign, getitem. destruct o; try discriminate.
  destruct (assoc k fields); discriminate.
Qed.

Lemma iterate_benign o : benign (iterate o).
Proof. unfold benign. destruct o; discriminate. Qed.

Lemma hash_key_benign v : benign (hash_key v).
Proof. unfold benign. destruct v; discriminate. Qed.

Lemma raise_for_status_benign r : benign (raise_for_status r).
Proof.
  unfold benign, raise_for_status.
  destruct ((400 <=? status_code r)%Z && (status_code r <? 600)%Z); discriminate.
Qed.

Lemma response_json_benign r : benign (response_json r).
Proof. unfold benign, response_json. destruct (json_body r); discriminate. Qed.

Lemma tag_content_benign t : benign (tag_content t).
Proof.
  unfold benign, tag_content. destruct t as [t|]; [|discriminate].
  destruct (assoc "content" (attrs t)); discriminate.
Qed.

Lemma py_filter_benign nodes : benign (py_filter Worker.is_disclosed nodes).
Proof.
  induction nodes as [|node rest IH]; simpl; [discriminate|].
  apply rbind_benign.
  - apply rbind_benign; [apply getitem_benign|discriminate].
  - intros keep. apply rbind_benign; [exact IH|discriminate].
Qed.

Lemma reply_result_benign reply : calm_reply reply -> benign (reply_result reply).
Proof.
  unfold calm_reply, benign. destruct reply as [r|e]; simpl; [discriminate|].
  intros H1 H2. apply H1. congruence.
Qed.

Lemma fetch_result_benign reply : calm_reply reply -> benign (fetch_result reply).
Proof.
  intros H. unfold fetch_result.
  repeat (apply rbind_benign;
          [first [apply reply_result_benign, H | apply raise_for_status_benign
                 | apply response_json_benign | apply getitem_benign
                 | apply iterate_benign]
          |intros ?]).
  apply py_filter_benign.
Qed.

Lemma refresh_result_benign reply : calm_reply reply -> benign (refresh_result reply).
Proof.
  intros H. unfold refresh_result.
  apply rbind_benign; [apply reply_result_benign, H|intros r].
  apply rbind_benign; [apply raise_for_status_benign|intros _].
  apply tag_content_benign.
Qed.

Lemma forward_result_benign reply : calm_reply reply -> benign (forward_result reply).
Proof.
  intros H. unfold forward_result.
  apply rbind_benign; [apply reply_result_benign, H|apply raise_for_status_benign].
Qed.

Lemma event_id_benign event : benign (event_id event).
Proof.
  unfold event_id.
  apply rbind_benign; [apply getitem_benign|intros report].
  apply rbind_benign; [apply getitem_benign|apply hash_key_benign].
Qed.

Lemma processed_benign reply event s :
  calm_reply reply -> benign (fst (processed reply event s)).
Proof.
  intros H. unfold processed. pose proof (event_id_benign event) as Hid.
  destruct (event_id event) as [k|e]; simpl; [|exact (benign_raised e Hid)].
  destruct (decide (k ∈ seen s)); simpl; [discriminate|].
  apply forward_result_benign, H.
Qed.

Lemma for_each_benign slack events : forall i s,
  (forall j, calm_reply (slack j)) ->
  benign (fst (Worker.for_each_event slack i events s)).
Proof.
  induction events as [|event rest IH]; intros i s H; [discriminate|].
  rewrite for_each_cons.
  pose proof (processed_benign (slack i) event s (H i)) as Hp.
  destruct (processed (slack i) event s) as [[[]|e] s1]; simpl in *; [|exact Hp].
  apply IH, H.
Qed.

Lemma fetched_benign env since s : calm env -> benign (fst (fetched env since s)).
Proof.
  intros [Hf Hr Hf2 _ _]. unfold fetched.
  destruct (expired_token (fetch_result (Worker.fetch_reply env))).
  - unfold refreshed. pose proof (refresh_result_benign _ Hr) as Hb.
    destruct (refresh_result (Worker.refresh_reply env)) as [token|e]; simpl;
      [|exact (benign_raised e Hb)].
    apply fetch_result_benign, Hf2.
  - simpl. apply fetch_result_benign, Hf.
Qed.

Lemma cycle_benign env s : calm env -> benign (fst (Worker.cycle env s)).
Proof.
  intros Hc. rewrite cycle_run.
  pose proof (fetched_benign env (Worker.utcnow env - minutes 15) s Hc) as Hf.
  destruct (fetched env _ s) as [[events|e] s1]; simpl in *; [|exact (benign_raised e Hf)].
  apply for_each_benign, Hc.
Qed.

Lemma cycle_sleeps env s : sleeps (trace (snd (Worker.cycle env s))) = sleeps (trace s).
Proof.
  rewrite cycle_run. unfold fetched.
  destruct (expired_token (fetch_result (Worker.fetch_reply env))).
  - unfold refreshed.
    destruct (refresh_result (Worker.refresh_reply env)) as [token|e]; simpl.
    + destruct (fetch_result (Worker.refetch_reply env)) as [events|e]; simpl.
      * match goal with
        | |- context [Worker.for_each_event ?sl ?i ?ev ?st] =>
            destruct (for_each_quiet sl ev i st) as (_ & _ & _ & Hs & _)
        end.
        rewrite Hs. simpl. count_simpl. lia.
      * count_simpl. lia.
    + count_simpl. lia.
  - destruct (fetch_result (Worker.fetch_reply env)) as [events|e]; simpl.
    + match goal with
      | |- context [Worker.for_each_event ?sl ?i ?ev ?st] =>
          destruct (for_each_quiet sl ev i st) as (_ & _ & _ & Hs & _)
      end.
      rewrite Hs. simpl. count_simpl. lia.
    + count_simpl. lia.
Qed.

Lemma after_cycle_sleeps env s : sleeps (trace (after_cycle env s)) = sleeps (trace s) + 1.
Proof.
  unfold after_cycle. pose proof (cycle_sleeps env s) as H.
  destruct (Worker.cycle env s) as [[[]|e] s1]; simpl in *; rewrite <- H; count_simpl; lia.
Qed.

Lemma main_loop_calm_step env rest s :
  calm env -> Worker.main_loop (env :: rest) s = Worker.main_loop rest (after_cycle env s).
Proof.
  intros Hc. rewrite main_loop_cons. pose proof (cycle_benign env s Hc) as Hb.
  rewrite (calm_sleep env Hc).
  destruct (Worker.cycle env s) as [[[]|e] s1]; simpl in *; [reflexivity|].
  destruct e; try reflexivity. exfalso. apply Hb. reflexivity.
Qed.

Lemma main_loop_calm envs : forall s,
  Forall calm envs ->
  fst (Worker.main_loop envs s) = Worker.Looping /\
  sleeps (trace (snd (Worker.main_loop envs s))) = sleeps (trace s) + length envs.
Proof.
  induction envs as [|env rest IH]; intros s H.
  - simpl. split; [reflexivity|lia].
  - inversion H as [|? ? Hc Hrest]; subst.
    rewrite (main_loop_calm_step env rest s Hc).
    destruct (IH (after_cycle env s) Hrest) as [H1 H2].
    split; [exact H1|]. rewrite H2, after_cycle_sleeps. simpl. lia.
Qed.

(** C7: the polling loop of the worker does not terminate on any
    exception raised during a cycle other than the cancellation signal
    (KeyboardInterrupt).  As long as no reply delivers that signal, every
    exception a cycle raises is caught at the top of the loop and reported,
    the loop sleeps and goes on to the next cycle, and after any number of
    cycles it is still looping. *)
Theorem C7_only_cancellation_stops_the_loop :
  forall (env : Worker.CycleEnv) (rest : list Worker.CycleEnv) (s : State),
    calm env ->
    Forall calm rest ->
    fst (Worker.cycle env s) <> Raised KeyboardInterrupt /\
    (forall e, fst (Worker.cycle env s) = Raised e ->
       Worker.main_loop (env :: rest) s =
       Worker.main_loop rest
         (push (Sleep 60) (push (Log (ExecutionFailed e)) (snd (Worker.cycle env s))))) /\
    fst (Worker.main_loop (env :: rest) s) = Worker.Looping /\
    sleeps (trace (snd (Worker.main_loop (env :: rest) s)))
      = sleeps (trace s) + length (env :: rest).
Proof.
  intros env rest s Hc Hrest.
  split; [apply cycle_benign, Hc|]. split.
  - intros e He. rewrite (main_loop_calm_step env rest s Hc). unfold after_cycle.
    destruct (Worker.cycle env s) as [[[]|e'] s1]; simpl in *; [discriminate|].
    congruence.
  - apply main_loop_calm. constructor; assumption.
Qed.

Lemma failing_cycle_calm : calm Samples.failing_cycle.
Proof.
  constructor; try discriminate; try reflexivity.
  intros [|i]; discriminate.
Qed.

Lemma exiting_cycle_calm : calm Samples.exiting_cycle.
Proof. constructor; try discriminate; reflexivity. Qed.

Lemma C7_only_cancellation_stops_the_loop_witness :
  calm Samples.failing_cycle /\
  Forall calm [Samples.exiting_cycle] /\
  fst (Worker.cycle Samples.failing_cycle Worker.init) <> Raised KeyboardInterrupt /\
  fst (Worker.main_loop [Samples.failing_cycle; Samples.exiting_cycle] Worker.init)
    = Worker.Looping /\
  sleeps (trace (snd (Worker.main_loop [Samples.failing_cycle; Samples.exiting_cycle]
                        Worker.init)))
    = sleeps (trace Worker.init) + 2.
Proof.
  split; [exact failing_cycle_calm|].
  split; [constructor; [exact exiting_cycle_calm|constructor]|].
  destruct (C7_only_cancellation_stops_the_loop
              Samples.failing_cycle [Samples.exiting_cycle] Worker.init
              failing_cycle_calm
              (@List.Forall_cons _ calm Samples.exiting_cycle [] exiting_cycle_calm
                 (@List.Forall_nil _ calm)))
    as (H1 & _ & H3 & H4).
  split; [exact H1|]. split; [exact H3|exact H4].
Defined.

(** ** The token header *)

Lemma follows_refl s : follows s s.
Proof. exists []. rewrite app_nil_r. split; [reflexivity|]. intros H. split; [exact H|constructor]. Qed.

Lemma follows_trans s1 s2 s3 : follows s1 s2 -> follows s2 s3 -> follows s1 s3.
Proof.
  intros (n1 & Ht1 & H1) (n2 & Ht2 & H2). exists (n1 ++ n2).
  split; [rewrite Ht2, Ht1, app_assoc; reflexivity|].
  intros Hs. destruct (H1 Hs) as [Hs2 Hn1]. destruct (H2 Hs2) as [Hs3 Hn2].
  split; [exact Hs3|]. apply Forall_app. split; assumption.
Qed.

Lemma push_follows a s : (tokened s -> carries_token a = true) -> follows s (push a s).
Proof.
  intros Ha. exists [a]. split; [reflexivity|]. intros Hs.
  split; [exact Hs|]. constructor; [apply Ha, Hs|constructor].
Qed.

Lemma post_carries url since s : tokened s -> carries_token (SessionPost url (headers s) since) = true.
Proof. intros H. simpl. apply bool_decide_eq_true_2, H. Qed.

Lemma get_carries url s : tokened s -> carries_token (SessionGet url (headers s)) = true.
Proof. intros H. simpl. apply bool_decide_eq_true_2, H. Qed.

Lemma refreshed_follows reply s : follows s (snd (refreshed reply s)).
Proof.
  unfold refreshed. destruct (refresh_result reply) as [token|e]; simpl.
  - exists [SessionGet landing_url (headers s)]. split; [reflexivity|]. intros Hs.
    split.
    + unfold tokened; simpl. rewrite lookup_insert_eq. eexists; reflexivity.
    + constructor; [apply get_carries, Hs|constructor].
  - apply push_follows. apply get_carries.
Qed.

Lemma loop_extends_follows s s' : loop_extends s s' -> follows s s'.
Proof.
  intros (Hh & _ & new & Ht & Hnew). exists new. split; [exact Ht|]. intros Hs.
  split; [unfold tokened in *; rewrite Hh; exact Hs|].
  eapply Forall_impl; [exact Hnew|].
  intros [| | | |[]|]; simpl; intros H; try contradiction; reflexivity.
Qed.

Lemma fetched_follows env since s : follows s (snd (fetched env since s)).
Proof.
  unfold fetched. cbv zeta.
  set (s1 := push (SessionPost graphql_url (headers s) since) s).
  assert (H1 : follows s s1) by (apply push_follows, post_carries).
  assert (H2 : follows s1 (push (Log CsrfTokenInvalid) s1))
    by (apply push_follows; reflexivity).
  destruct (expired_token (fetch_result (Worker.fetch_reply env))); simpl; [|exact H1].
  pose proof (refreshed_follows (Worker.refresh_reply env) (push (Log CsrfTokenInvalid) s1))
    as Hr.
  destruct (refreshed (Worker.refresh_reply env) (push (Log CsrfTokenInvalid) s1))
    as [[[]|e] s3]; simpl in *.
  - eapply follows_trans; [exact H1|]. eapply follows_trans; [exact H2|].
    eapply follows_trans; [exact Hr|]. apply push_follows, post_carries.
  - eapply follows_trans; [exact H1|]. eapply follows_trans; [exact H2|exact Hr].
Qed.

Lemma cycle_follows env s : follows s (snd (Worker.cycle env s)).
Proof.
  rewrite cycle_run.
  pose proof (fetched_follows env (Worker.utcnow env - minutes 15) s) as Hf.
  destruct (fetched env _ s) as [[events|e] s1]; simpl in *; [|exact Hf].
  eapply follows_trans; [exact Hf|]. apply loop_extends_follows, for_each_extends.
Qed.

Lemma after_cycle_follows env s : follows s (after_cycle env s).
Proof.
  unfold after_cycle. pose proof (cycle_follows env s) as Hc.
  destruct (Worker.cycle env s) as [[[]|e] s1]; simpl in *.
  - eapply follows_trans; [exact Hc|]. apply push_follows; reflexivity.
  - assert (Hl : follows s1 (push (Log (ExecutionFailed e)) s1))
      by (apply push_follows; reflexivity).
    eapply follows_trans; [exact Hc|]. eapply follows_trans; [exact Hl|].
    apply push_follows; reflexivity.
Qed.

Lemma main_loop_follows envs : forall s, follows s (snd (Worker.main_loop envs s)).
Proof.
  induction envs as [|env rest IH]; intros s; [apply follows_refl|].
  rewrite main_loop_cons.
  pose proof (cycle_follows env s) as Hc.
  pose proof (after_cycle_follows env s) as Ha.
  assert (Hrest : follows s
            (snd match Worker.sleep_reply env with
                 | None => Worker.main_loop rest (after_cycle env s)
                 | Some e => (Worker.Escaped e, after_cycle env s)
                 end)).
  { destruct (Worker.sleep_reply env); simpl; [exact Ha|].
    eapply follows_trans; [exact Ha|apply IH]. }
  destruct (Worker.cycle env s) as [[[]|e] s1]; simpl in *; [exact Hrest|].
  destruct e; simpl; try exact Hrest. exact Hc.
Qed.

(** C8, as stated, fails on "non-2xx": [raise_for_status] raises for the
    client and server error statuses only.  A landing page answered with
    status 300 that holds the token element is not a failure: the refresh
    returns and the header is set. *)
Lemma C8_counterexample :
  let page := Samples.landing_page 300 "tok" in
  ((200 <=? status_code page) && (status_code page <? 300))%Z = false /\
  fst (Worker.refresh_csrf (Returns page) Worker.init) = Done tt /\
  fst (Poll.refresh_csrf (Returns page) Worker.init) = Done tt /\
  headers (snd (Worker.refresh_csrf (Returns page) Worker.init)) !! "x-csrf-token"
    = Some "tok".
Proof. repeat split; vm_compute; reflexivity. Qed.

(** C8, amended: the token refresh ([refresh_csrf], the same in the worker
    and in the poll lambda) performs one GET of the landing page, extracts the
    content attribute of the first meta element named "csrf-token" of the
    returned markup and sets it as the session's x-csrf-token header, so that
    the requests issued through the session afterwards carry that header.  It
    fails, leaving the headers as they were, if the request raises, if the
    page is answered with a 4xx or 5xx status, or if the token element (or
    its content attribute) is absent from the markup. *)
Theorem C8_refresh_sets_the_token_header :
  forall (reply : Reply) (s : State),
    let run := Worker.refresh_csrf reply s in
    Poll.refresh_csrf reply s = run /\
    trace (snd run) = trace s ++ [SessionGet landing_url (headers s)] /\
    match reply with
    | Raises e => fst run = Raised e /\ headers (snd run) = headers s
    | Returns response =>
        if ((400 <=? status_code response) && (status_code response <? 600))%Z
        then fst run = Raised (HTTPError response) /\ headers (snd run) = headers s
        else
          match select_one_csrf_meta (markup response) with
          | None => fst run = Raised TypeError /\ headers (snd run) = headers s
          | Some tag =>
              match assoc "content" (attrs tag) with
              | None =>
                  fst run = Raised (KeyError "content") /\ headers (snd run) = headers s
              | Some token =>
                  fst run = Done tt /\
                  headers (snd run) = <["x-csrf-token" := token]> (headers s) /\
                  (forall reply' since,
                     trace (snd (Worker.fetch_hacktivity reply' since (snd run))) =
                     trace (snd run) ++
                       [SessionPost graphql_url
                          (<["x-csrf-token" := token]> (headers s)) since] /\
                     trace (snd (Poll.fetch_hacktivity reply' since (snd run))) =
                     trace (snd run) ++
                       [SessionPost graphql_url
                          (<["x-csrf-token" := token]> (headers s)) since]) /\
                  (forall envs, exists new,
                     trace (snd (Worker.main_loop envs (snd run))) = trace (snd run) ++ new /\
                     Forall (fun a => carries_token a = true) new)
              end
          end
    end.
Proof.
  intros reply s. cbv zeta. rewrite poll_refresh_run, worker_refresh_run.
  split; [reflexivity|].
  split; [apply refreshed_shape|].
  unfold refreshed, refresh_result, raise_for_status.
  destruct reply as [response|e]; simpl; [|auto].
  destruct ((400 <=? status_code response)%Z && (status_code response <? 600)%Z);
    simpl; [auto|].
  destruct (select_one_csrf_meta (markup response)) as [tag|]; simpl; [|auto].
  destruct (assoc "content" (attrs tag)) as [token|]; simpl; [|auto].
  split; [reflexivity|]. split; [reflexivity|]. split.
  - intros reply' since. rewrite worker_fetch_run, poll_fetch_run. simpl. auto.
  - intros envs.
    match goal with
    | |- context [Worker.main_loop envs ?st] =>
        destruct (main_loop_follows envs st) as (new & Ht & Hn)
    end.
    exists new. split; [exact Ht|]. apply Hn.
    unfold tokened; simpl. rewrite lookup_insert_eq. eexists; reflexivity.
Qed.

(** ** The order of refresh and fetch *)

Lemma cycle_starts_with_fetch env s :
  exists new,
    trace (snd (Worker.cycle env s)) =
    trace s ++ SessionPost graphql_url (headers s) (Worker.utcnow env - minutes 15) :: new /\
    refreshes new =
      if expired_token (fetch_result (Worker.fetch_reply env)) then 1 else 0.
Proof.
  rewrite cycle_run. unfold fetched.
  destruct (expired_token (fetch_result (Worker.fetch_reply env))).
  - unfold refreshed.
    destruct (refresh_result (Worker.refresh_reply env)) as [token|e]; simpl.
    + destruct (fetch_result (Worker.refetch_reply env)) as [events|e]; simpl.
      * match goal with
        | |- context [Worker.for_each_event ?sl ?i ?ev ?st] =>
            destruct (for_each_extends sl ev i st) as (_ & _ & new & Ht & Hnew)
        end.
        destruct (loop_action_quiet new Hnew) as (Hr & _).
        eexists. rewrite Ht. simpl. rewrite <- !app_assoc. simpl.
        split; [reflexivity|]. revert Hr. count_simpl. intros ->. reflexivity.
      * eexists. rewrite <- !app_assoc. simpl. split; reflexivity.
    + eexists. rewrite <- !app_assoc. simpl. split; reflexivity.
  - destruct (fetch_result (Worker.fetch_reply env)) as [events|e]; simpl.
    + match goal with
      | |- context [Worker.for_each_event ?sl ?i ?ev ?st] =>
          destruct (for_each_extends sl ev i st) as (_ & _ & new & Ht & Hnew)
      end.
      destruct (loop_action_quiet new Hnew) as (Hr & _).
      exists new. rewrite Ht. simpl. rewrite <- !app_assoc. simpl.
      split; [reflexivity|exact Hr].
    + exists []. split; reflexivity.
Qed.

Lemma main_loop_extends_cycle env rest s :
  exists more,
    trace (snd (Worker.main_loop (env :: rest) s)) = trace (snd (Worker.cycle env s)) ++ more.
Proof.
  rewrite main_loop_cons.
  assert (Ha : exists more, trace (after_cycle env s) = trace (snd (Worker.cycle env s)) ++ more).
  { unfold after_cycle. destruct (Worker.cycle env s) as [[[]|e] s1]; simpl.
    - eexists; reflexivity.
    - eexists. rewrite <- app_assoc. reflexivity. }
  assert (Hrest : exists more,
            trace (snd match Worker.sleep_reply env with
                       | None => Worker.main_loop rest (after_cycle env s)
                       | Some e => (Worker.Escaped e, after_cycle env s)
                       end) = trace (snd (Worker.cycle env s)) ++ more).
  { destruct Ha as (m1 & H1). destruct (Worker.sleep_reply env); simpl; [eauto|].
    destruct (main_loop_follows rest (after_cycle env s)) as (m2 & H2 & _).
    exists (m1 ++ m2). rewrite H2, H1, app_assoc. reflexivity. }
  destruct (Worker.cycle env s) as [[[]|e] s1]; simpl in *; [exact Hrest|].
  destruct e; simpl; try exact Hrest. exists []. rewrite app_nil_r. reflexivity.
Qed.

(** C9: the main loop of the worker performs no token refresh before a
    fetch attempt.  Every cycle begins with the fetch, sent with the headers
    the session had when the cycle began; a refresh occurs in the cycle only
    after that fetch has failed with status 500 and the marker; and the very
    first fetch of the process carries no x-csrf-token header.  The poll
    lambda instead begins with the refresh, and fetches only once the refresh
    has succeeded, with the new token in the headers. *)
Theorem C9_worker_fetches_before_any_refresh :
  forall (env : Worker.CycleEnv) (rest : list Worker.CycleEnv)
         (p : Poll.InvocationEnv) (s : State),
    let since := (Worker.utcnow env - minutes 15)%Z in
    let first := Worker.fetch_hacktivity (Worker.fetch_reply env) since s in
    (exists new,
       trace (snd (Worker.cycle env s)) =
       trace s ++ SessionPost graphql_url (headers s) since :: new /\
       refreshes new = if expired_token (fst first) then 1 else 0) /\
    (headers Worker.init !! "x-csrf-token" = None /\
     exists new,
       trace (snd (Worker.main (env :: rest))) =
       SessionPost graphql_url (headers Worker.init) since :: new) /\
    (exists new,
       trace (snd (Poll.lambda_handler p s)) =
       trace s ++ SessionGet landing_url requests_default_headers :: new /\
       match fst (Poll.refresh_csrf (Poll.refresh_reply p) s) with
       | Done _ =>
           exists token new',
             new = SessionPost graphql_url
                     (<["x-csrf-token" := token]> requests_default_headers)
                     (Poll.utcnow p - minutes 4) :: new' /\
             fetches new' = 0 /\ refreshes new' = 0
       | Raised _ => new = []
       end).
Proof.
  intros env rest p s. cbv zeta. rewrite worker_fetch_run. simpl fst.
  split; [apply cycle_starts_with_fetch|]. split.
  - split; [reflexivity|]. unfold Worker.main.
    destruct (main_loop_extends_cycle env rest Worker.init) as (more & Hm).
    destruct (cycle_starts_with_fetch env Worker.init) as (new & Hc & _).
    exists (new ++ more). rewrite Hm, Hc. reflexivity.
  - rewrite lambda_handler_run, poll_refresh_run. unfold invoked, refreshed.
    destruct (refresh_result (Poll.refresh_reply p)) as [token|e]; simpl.
    + destruct (rbind (poll_fetch_result (Poll.fetch_reply p)) iterate) as [events|e]; simpl.
      * destruct (queued_quiet (Poll.sqs_reply p) events 0) as (_ & Hr & Hf).
        eexists. rewrite <- !app_assoc. simpl. split; [reflexivity|].
        exists token. eexists. split; [reflexivity|]. split; assumption.
      * eexists. rewrite <- !app_assoc. simpl. split; [reflexivity|].
        exists token, []. repeat split.
    + exists []. split; reflexivity.
Qed.

(** ** The messages of the poll lambda *)

Lemma queued_messages sqs events : forall i,
  exists sent unsent,
    events = sent ++ unsent /\ Forall has_id sent /\
    snd (queued sqs i events) = map message sent.
Proof.
  induction events as [|event rest IH]; intros i; simpl.
  - exists [], []. repeat split. constructor.
  - destruct (Poll.deduplication_id event) as [id|e] eqn:Hid; simpl.
    + assert (Hev : has_id event) by (unfold has_id; rewrite Hid; reflexivity).
      assert (Hm : SendMessage event id "hacktivity" = message event)
        by (unfold message; rewrite Hid; reflexivity).
      destruct (sqs i) as [e|]; simpl.
      * exists [event], rest. repeat split; [repeat constructor; exact Hev|].
        simpl. rewrite Hm. reflexivity.
      * destruct (IH (S i)) as (sent & unsent & He & Hs & Hq).
        exists (event :: sent), unsent. split; [simpl; congruence|].
        split; [constructor; assumption|]. simpl. rewrite Hq, Hm. reflexivity.
    + exists [], (event :: rest). repeat split. constructor.
Qed.

Lemma queued_all sqs events : forall i,
  (forall j, sqs j = None) -> Forall has_id events ->
  queued sqs i events = (Done tt, map message events).
Proof.
  induction events as [|event rest IH]; intros i Hsqs Hall; simpl; [reflexivity|].
  inversion Hall as [|? ? Hev Hrest]; subst. unfold has_id in Hev. unfold message at 1.
  destruct (Poll.deduplication_id event) as [id|e]; simpl in *; [|discriminate].
  rewrite Hsqs, (IH (S i) Hsqs Hrest). reflexivity.
Qed.

Lemma sent_messages_map events : sent_messages (map message events) = map envelope events.
Proof. induction events as [|event rest IH]; simpl; [reflexivity|]. rewrite IH. reflexivity. Qed.

(** C10: in the poll lambda every fetched node is sent to the queue with
    the MessageDeduplicationId that [event.get("report", {}).get("_id")]
    computes, which is None, and no error, when the node has no report or
    the report has no _id, and with the fixed MessageGroupId "hacktivity".
    The nodes are sent in order, with no filter, until a call raises; when
    none raises, all of them are sent. *)
Theorem C10_every_node_is_queued :
  forall (p : Poll.InvocationEnv) (s : State) (events : list json)
         (fields : list (string * json)),
    Poll.deduplication_id (JObj fields) =
      match assoc "report" fields with
      | None => Done JNull
      | Some (JObj report) =>
          Done (match assoc "_id" report with Some id => id | None => JNull end)
      | Some _ => Raised AttributeError
      end /\
    (forall sqs i,
       let run := Poll.for_each_event sqs i events s in
       exists sent unsent,
         events = sent ++ unsent /\ Forall has_id sent /\
         trace (snd run) = trace s ++ map message sent /\
         ((forall j, sqs j = None) -> Forall has_id events ->
          unsent = [] /\ fst run = Done tt)) /\
    (fst (Poll.refresh_csrf (Poll.refresh_reply p) s) = Done tt ->
     fst (Poll.fetch_hacktivity (Poll.fetch_reply p) (Poll.utcnow p - minutes 4) s)
       = Done (JArr events) ->
     (forall j, Poll.sqs_reply p j = None) ->
     Forall has_id events ->
     fst (Poll.lambda_handler p s) = Done tt /\
     sent_messages (trace (snd (Poll.lambda_handler p s)))
       = sent_messages (trace s) ++ map envelope events).
Proof.
  intros p s events fields. split; [|split].
  - unfold Poll.deduplication_id, dict_get. simpl.
    destruct (assoc "report" fields) as [[]|]; simpl; try reflexivity.
    destruct (assoc "_id" fields0); reflexivity.
  - intros sqs i. cbv zeta. rewrite poll_for_each_run. simpl.
    destruct (queued_messages sqs events i) as (sent & unsent & He & Hs & Hq).
    exists sent, unsent. repeat split; try assumption.
    + rewrite Hq. reflexivity.
    + rewrite (queued_all sqs events i H H0) in Hq. simpl in Hq.
      apply (f_equal (@length Action)) in Hq. rewrite !length_map in Hq.
      subst events. rewrite length_app in Hq.
      destruct unsent; [reflexivity|simpl in Hq; lia].
    + rewrite (queued_all sqs events i H H0). reflexivity.
  - rewrite poll_refresh_run, poll_fetch_run, lambda_handler_run. simpl.
    unfold invoked, refreshed.
    intros Hr Hf Hsqs Hall.
    destruct (refresh_result (Poll.refresh_reply p)) as [token|e]; simpl in *;
      [|discriminate].
    rewrite Hf. simpl. rewrite (queued_all _ events 0 Hsqs Hall). simpl.
    split; [reflexivity|].
    rewrite !sent_messages_app, sent_messages_map. simpl. rewrite !app_nil_r. reflexivity.
Qed.

Lemma C10_every_node_is_queued_witness :
  let bare := JObj [("__typename", JStr "Disclosed")] in
  let events := [Samples.X; Samples.other; bare] in
  let p := Poll.mkInvocationEnv 1000000000
             (Returns (Samples.landing_page 200 "tok"))
             (Returns (Samples.nodes_response events)) (fun _ => None) in
  fst (Poll.refresh_csrf (Poll.refresh_reply p) Poll.init) = Done tt /\
  fst (Poll.fetch_hacktivity (Poll.fetch_reply p) (Poll.utcnow p - minutes 4) Poll.init)
    = Done (JArr events) /\
  (forall j, Poll.sqs_reply p j = None) /\
  Forall has_id events /\
  fst (Poll.lambda_handler p Poll.init) = Done tt /\
  sent_messages (trace (snd (Poll.lambda_handler p Poll.init)))
    = [(Samples.X, JStr "1337", "hacktivity");
       (Samples.other, JStr "7", "hacktivity");
       (bare, JNull, "hacktivity")].
Proof.
  assert (Hall : Forall has_id
                   [Samples.X; Samples.other; JObj [("__typename", JStr "Disclosed")]])
    by (repeat constructor).
  split; [reflexivity|]. split; [reflexivity|]. split; [reflexivity|].
  split; [exact Hall|].
  destruct (C10_every_node_is_queued
              (Poll.mkInvocationEnv 1000000000
                 (Returns (Samples.landing_page 200 "tok"))
                 (Returns (Samples.nodes_response
                    [Samples.X; Samples.other; JObj [("__typename", JStr "Disclosed")]]))
                 (fun _ => None))
              Poll.init
              [Samples.X; Samples.other; JObj [("__typename", JStr "Disclosed")]]
              []) as (_ & _ & H).
  apply (H eq_refl eq_refl (fun _ => eq_refl) Hall).
Defined.

(** ** post_slack in full against the coarse model *)

Lemma notify_post_slack_run py url webhook payload s :
  Notify.post_slack py url webhook payload s =
  Worker.post_slack (slack_answer py url webhook payload) payload s.
Proof.
  unfold Notify.post_slack, Worker.post_slack, slack_answer, bind, lift, emit, await.
  destruct (Notify.slack_request py url payload) as [request|e]; simpl; reflexivity.
Qed.

Lemma notify_process_event_run py url webhook event s :
  Notify.process_event py url webhook event s =
  Worker.process_event (slack_answer py url webhook event) event s.
Proof.
  unfold Notify.process_event, Worker.process_event, bind, lift, get_seen.
  destruct (getitem event "report") as [report|e]; simpl; [|reflexivity].
  destruct (getitem report "_id") as [report_id|e]; simpl; [|reflexivity].
  destruct (hash_key report_id) as [k|e]; simpl; [|reflexivity].
  destruct (decide (k ∈ seen s)); [reflexivity|].
  unfold seen_add, emit; simpl. rewrite notify_post_slack_run. reflexivity.
Qed.

Lemma notify_for_each_run py url webhook events : forall pre s,
  Notify.for_each_event py url webhook (length pre) events s =
  Worker.for_each_event (answers py url webhook (pre ++ events)) (length pre) events s.
Proof.
  induction events as [|event rest IH]; intros pre s; [reflexivity|].
  simpl. unfold bind. rewrite notify_process_event_run.
  assert (Hat : answers py url webhook (pre ++ event :: rest) (length pre)
                = slack_answer py url (webhook (length pre)) event).
  { unfold answers. rewrite list_lookup_middle by reflexivity. reflexivity. }
  rewrite Hat.
  destruct (Worker.process_event _ event s) as [[[]|e] s1]; [|reflexivity].
  specialize (IH (pre ++ [event]) s1).
  rewrite length_app in IH. simpl in IH. rewrite Nat.add_1_r, <- app_assoc in IH.
  exact IH.
Qed.

Lemma fetched_result env since s : fst (fetched env since s) = batch_result env.
Proof.
  unfold fetched, batch_result.
  destruct (expired_token (fetch_result (Worker.fetch_reply env))); [|reflexivity].
  unfold refreshed. destruct (refresh_result (Worker.refresh_reply env)); reflexivity.
Qed.

Lemma notify_cycle_run py url env webhook s :
  Notify.cycle py url env webhook s = Worker.cycle (coarse py url (env, webhook)) s.
Proof.
  unfold Notify.cycle, Worker.cycle, bind.
  change (Worker.fetch_events (coarse py url (env, webhook)))
    with (Worker.fetch_events env).
  change (Worker.utcnow (coarse py url (env, webhook))) with (Worker.utcnow env).
  pose proof (fetched_result env (Worker.utcnow env - minutes 15) s) as Hb.
  rewrite <- fetch_events_run in Hb.
  destruct (Worker.fetch_events env (Worker.utcnow env - minutes 15) s)
    as [[events|e] s1]; [|reflexivity].
  simpl in Hb. unfold coarse, batch_of. simpl. rewrite <- Hb.
  apply (notify_for_each_run py url webhook events [] s1).
Qed.

Lemma notify_main_loop_run py url envs : forall s,
  Notify.main_loop py url envs s = Worker.main_loop (map (coarse py url) envs) s.
Proof.
  induction envs as [|[env webhook] rest IH]; intros s; [reflexivity|].
  simpl. rewrite notify_cycle_run.
  destruct (Worker.cycle (coarse py url (env, webhook)) s) as [[[]|e] s1]; simpl.
  - destruct (Worker.sleep_reply env); simpl; [reflexivity|apply IH].
  - destruct e; try (destruct (Worker.sleep_reply env); simpl; [reflexivity|apply IH]).
    reflexivity.
Qed.

(** X1: the worker with [post_slack] in full (the attachment built from
    the payload, the webhook request, the status check) runs exactly as the
    coarse worker does on the replies the full calls amount to; so what holds
    of every run of the coarse worker holds of it, in particular that
    [post_slack] is called at most once for each identifier. *)
Theorem X1_full_worker_refines_the_coarse_one :
  forall (py : Text.Runtime) (webhook_url : option string)
         (envs : list (Worker.CycleEnv * (nat -> Webhook.Request -> Reply)))
         (s : State) (k : Key),
    Notify.main_loop py webhook_url envs s
      = Worker.main_loop (map (coarse py webhook_url) envs) s /\
    forwards k (trace (snd (Notify.main_loop py webhook_url envs Worker.init))) <= 1.
Proof.
  intros py url envs s k. split; [apply notify_main_loop_run|].
  rewrite notify_main_loop_run.
  apply (main_loop_covers _ Worker.init init_covers k).
Qed.

(** X2: [post_slack] leaves the session headers and the ledger as they
    are, whatever happens: its only trace in the worker's state is the
    recorded call.  It returns normally exactly when the request could be
    built from the payload, the webhook answered, and the status of the answer
    is outside 400..599. *)
Theorem X2_post_slack_outcome :
  forall (py : Text.Runtime) (webhook_url : option string)
         (webhook : Webhook.Request -> Reply) (payload : json) (s : State),
    snd (Notify.post_slack py webhook_url webhook payload s)
      = push (CallPostSlack payload) s /\
    (fst (Notify.post_slack py webhook_url webhook payload s) = Done tt <->
     exists request response,
       Notify.slack_request py webhook_url payload = Done request /\
       webhook request = Returns response /\
       ((400 <=? status_code response) && (status_code response <? 600))%Z = false).
Proof.
  intros py url webhook payload s.
  rewrite notify_post_slack_run, post_slack_run. simpl.
  split; [reflexivity|].
  unfold slack_answer, forward_result, raise_for_status.
  destruct (Notify.slack_request py url payload) as [request|e]; simpl.
  - destruct (webhook request) as [response|e] eqn:Hw; simpl.
    + destruct ((400 <=? status_code response)%Z && (status_code response <? 600)%Z)
        eqn:Hst; simpl.
      * split; [discriminate|]. intros (rq & rs & Hrq & Hrs & H).
        injection Hrq as <-. rewrite Hw in Hrs. injection Hrs as <-. congruence.
      * split; [|reflexivity]. intros _. exists request, response. auto.
    + split; [discriminate|]. intros (rq & rs & Hrq & Hrs & _).
      injection Hrq as <-. rewrite Hw in Hrs. discriminate.
  - split; [discriminate|]. intros (rq & rs & Hrq & _). discriminate.
Qed.

(** X3: an event that has an identifier but from which the request
    cannot be built (a field [post_slack] reads is missing, say) is entered in
    the ledger all the same, the cycle fails with the error of the build, and
    no later cycle calls [post_slack] for that identifier again: the event is
    never delivered. *)
Theorem X3_unformattable_event_is_never_retried :
  forall (py : Text.Runtime) (webhook_url : option string)
         (webhook : Webhook.Request -> Reply) (event : json) (k : Key) (e : exn)
         (s : State),
    event_id event = Done k ->
    k ∉ seen s ->
    Notify.slack_request py webhook_url event = Raised e ->
    let run := Notify.process_event py webhook_url webhook event s in
    fst run = Raised e /\
    k ∈ seen (snd run) /\
    forall envs,
      forwards k (trace (snd (Notify.main_loop py webhook_url envs (snd run))))
        = forwards k (trace (snd run)).
Proof.
  intros py url webhook event k e s Hid Hk Hbuild. cbv zeta.
  rewrite notify_process_event_run, process_event_run. unfold processed.
  rewrite Hid. destruct (decide (k ∈ seen s)); [contradiction|]. simpl.
  split; [unfold slack_answer; rewrite Hbuild; reflexivity|].
  split; [set_solver|].
  intros envs. rewrite notify_main_loop_run.
  apply main_loop_settled. simpl. set_solver.
Qed.

Lemma X3_unformattable_event_is_never_retried_witness :
  event_id Samples.X = Done (KStr "1337") /\
  (KStr "1337" ∉ seen Worker.init) /\
  Notify.slack_request SlackSamples.runtime (Some SlackSamples.hook) Samples.X
    = Raised (KeyError "reporter") /\
  let run := Notify.process_event SlackSamples.runtime (Some SlackSamples.hook)
               SlackSamples.accepts Samples.X Worker.init in
  fst run = Raised (KeyError "reporter") /\
  KStr "1337" ∈ seen (snd run).
Proof.
  split; [reflexivity|]. split; [compute_done|]. split; [reflexivity|].
  destruct (X3_unformattable_event_is_never_retried
              SlackSamples.runtime (Some SlackSamples.hook) SlackSamples.accepts
              Samples.X (KStr "1337") (KeyError "reporter") Worker.init)
    as (H1 & H2 & _); [reflexivity|compute_done|reflexivity|].
  split; [exact H1|exact H2].
Defined.

(** ** The request post_slack builds *)

Lemma text_app_cons x (a b : string) : String x a +:+ b = String x (a +:+ b).
Proof. reflexivity. Qed.

Lemma text_app_assoc (a b c : string) : (a +:+ b) +:+ c = a +:+ (b +:+ c).
Proof.
  induction a as [|x a IH]; [reflexivity|]. rewrite !text_app_cons, IH. reflexivity.
Qed.

Lemma text_app_nil_r (a : string) : a +:+ "" = a.
Proof.
  induction a as [|x a IH]; [reflexivity|]. rewrite text_app_cons, IH. reflexivity.
Qed.

Lemma qualified_spec v q :
  Text.qualified v = Done q ->
  exists s, v = JStr s /\
            q = (if String.prefix "http" s then s else Text.site +:+ s) /\
            String.prefix "http" q = true.
Proof.
  destruct v; simpl; try discriminate. intros [= <-]. exists s.
  split; [reflexivity|]. split; [reflexivity|].
  destruct (String.prefix "http" s) eqn:H; [exact H|reflexivity].
Qed.

Ltac request_inv H :=
  repeat match type of H with
         | rbind ?r _ = Done _ =>
             let E := fresh "E" in
             destruct r eqn:E; [cbn [rbind] in H|simpl in H; discriminate H]
         end.

(** X4: in every request [post_slack] builds, the two picture addresses
    (the icon of the message, from the team's profile picture, and the icon of
    the author, from the reporter's) start with "http": an address that does
    not is prefixed with https://hackerone.com, one that does is left alone;
    a picture that is no string yields no request. *)
Theorem X4_picture_addresses_are_absolute :
  forall (py : Text.Runtime) (webhook_url : option string) (payload : json)
         (request : Webhook.Request),
    Notify.slack_request py webhook_url payload = Done request ->
    exists reporter team reporter_picture team_picture attachment,
      getitem payload "reporter" = Done reporter /\
      getitem reporter "profile_picture" = Done (JStr reporter_picture) /\
      getitem payload "team" = Done team /\
      getitem team "profile_picture" = Done (JStr team_picture) /\
      Webhook.m_attachments (Webhook.r_json request) = [attachment] /\
      Webhook.a_author_icon attachment =
        (if String.prefix "http" reporter_picture then reporter_picture
         else "https://hackerone.com" +:+ reporter_picture) /\
      Webhook.m_icon_url (Webhook.r_json request) =
        (if String.prefix "http" team_picture then team_picture
         else "https://hackerone.com" +:+ team_picture) /\
      String.prefix "http" (Webhook.a_author_icon attachment) = true /\
      String.prefix "http" (Webhook.m_icon_url (Webhook.r_json request)) = true.
Proof.
  intros py url payload request H. unfold Notify.slack_request in H.
  request_inv H. injection H as <-. simpl.
  match goal with
  | Hr : Text.qualified ?v = Done ?q, Ht : Text.qualified ?w = Done ?p |- _ =>
      destruct (qualified_spec _ _ Hr) as (rp & -> & Hq & Hhttp);
      destruct (qualified_spec _ _ Ht) as (tp & -> & Hp & Hhttp')
  end.
  do 5 eexists. repeat split; try eassumption; try reflexivity; assumption.
Qed.

Lemma X4_picture_addresses_are_absolute_witness :
  Notify.slack_request SlackSamples.runtime (Some SlackSamples.hook) SlackSamples.payload
    = Done SlackSamples.request /\
  exists attachment,
    Webhook.m_attachments (Webhook.r_json SlackSamples.request) = [attachment] /\
    Webhook.a_author_icon attachment = "https://hackerone.com/assets/avatar.png" /\
    Webhook.m_icon_url (Webhook.r_json SlackSamples.request) = SlackSamples.picture.
Proof.
  split; [reflexivity|].
  destruct (X4_picture_addresses_are_absolute
              SlackSamples.runtime (Some SlackSamples.hook) SlackSamples.payload
              SlackSamples.request eq_refl)
    as (reporter & team & rp & tp & attachment & _ & _ & _ & _ & Ha & _).
  exists attachment. split; [exact Ha|].
  injection Ha as <-. split; reflexivity.
Defined.

Lemma option_step {A B : Type} (b : bool) (r : Result A) (f : A -> B) (o : option B) :
  (if b then x <~ r ;; Done (Some (f x)) else Done None) = Done o ->
  if b then exists x, r = Done x /\ o = Some (f x) else o = None.
Proof.
  destruct b; [|intros [= <-]; reflexivity].
  destruct r as [x|e]; simpl; [|discriminate]. intros [= <-]. exists x. auto.
Qed.

Lemma fields_text_parts (severity bounty : option string) :
  match severity with Some label => " - " +:+ label | None => "" end
    +:+ match bounty with Some amount => " - " +:+ amount | None => "" end
  = fields_text
      (match severity with
       | Some label => [Webhook.mkField "Severity" label true]
       | None => []
       end ++
       match bounty with
       | Some amount => [Webhook.mkField "Bounty" amount true]
       | None => []
       end).
Proof.
  destruct severity as [label|], bounty as [amount|]; simpl;
    rewrite ?text_app_assoc, ?text_app_nil_r; reflexivity.
Qed.

(** X5: the fallback text of the attachment and its fields always agree.
    The fields are "Severity" (present exactly when severity_rating is truthy)
    and then "Bounty" (present exactly when total_awarded_amount is truthy),
    each marked short, and the fallback is the quoted report title, " - ", the
    report address, then " - " and the value of each field, in the same
    order.  Without a severity there is no colour. *)
Theorem X5_fallback_lists_the_fields :
  forall (py : Text.Runtime) (webhook_url : option string) (payload : json)
         (request : Webhook.Request),
    Notify.slack_request py webhook_url payload = Done request ->
    exists report title address rating total attachment,
      getitem payload "report" = Done report /\
      getitem report "title" = Done title /\
      getitem report "url" = Done address /\
      getitem payload "severity_rating" = Done rating /\
      getitem payload "total_awarded_amount" = Done total /\
      Webhook.m_attachments (Webhook.r_json request) = [attachment] /\
      map Webhook.field_title (Webhook.a_fields attachment) =
        (if Text.truthy rating then ["Severity"] else []) ++
        (if Text.truthy total then ["Bounty"] else []) /\
      Forall (fun field => Webhook.field_short field = true)
             (Webhook.a_fields attachment) /\
      Webhook.a_fallback attachment =
        Text.quote +:+ Text.str py title +:+ Text.quote +:+ " - "
          +:+ Text.str py address +:+ fields_text (Webhook.a_fields attachment) /\
      (Text.truthy rating = false -> Webhook.a_color attachment = None).
Proof.
  intros py url payload request H. unfold Notify.slack_request in H.
  request_inv H. injection H as <-. simpl.
  match goal with
  | Hreport : getitem payload "report" = Done ?report,
    Htitle : getitem ?report "title" = Done ?title,
    Haddress : getitem ?report "url" = Done ?address,
    Hrating : getitem payload "severity_rating" = Done ?rating,
    Htotal : getitem payload "total_awarded_amount" = Done ?total,
    Hs : (if Text.truthy ?rating then _ else _) = Done ?severity,
    Hb : (if Text.truthy ?total then _ else _) = Done ?bounty |- _ =>
      apply option_step in Hs; apply option_step in Hb;
      exists report, title, address, rating, total; eexists;
      do 5 (split; [eassumption || reflexivity|]);
      split; [reflexivity|]; simpl;
      rewrite fields_text_parts;
      destruct (Text.truthy rating), (Text.truthy total);
      try destruct Hs as (label & _ & ->); try destruct Hb as (amount & _ & ->);
      subst; simpl
  end.
  all: repeat split; try reflexivity; try discriminate; repeat constructor.
Qed.

Lemma X5_fallback_lists_the_fields_witness :
  Notify.slack_request SlackSamples.runtime (Some SlackSamples.hook) SlackSamples.payload
    = Done SlackSamples.request /\
  exists attachment,
    Webhook.m_attachments (Webhook.r_json SlackSamples.request) = [attachment] /\
    map Webhook.field_title (Webhook.a_fields attachment) = ["Severity"; "Bounty"] /\
    Webhook.a_fallback attachment =
      Text.quote +:+ "Testing Report" +:+ Text.quote
        +:+ " - https://hackerone.com/bored-engineer - Critical - 1337 USD".
Proof.
  split; [reflexivity|].
  destruct (X5_fallback_lists_the_fields
              SlackSamples.runtime (Some SlackSamples.hook) SlackSamples.payload
              SlackSamples.request eq_refl)
    as (report & title & address & rating & total & attachment & _ & _ & _ & _ & _ &
        Ha & _).
  exists attachment. split; [exact Ha|].
  injection Ha as <-. split; reflexivity.
Defined.

Ltac use_key :=
  match goal with
  | E : getitem ?o ?k = Done _ |- is_done (getitem ?o ?k) = true =>
      rewrite E; reflexivity
  end.

(** X6: a request is built only from a payload that has every field
    [post_slack] reads, and only when SLACK_WEBHOOK_URL is set: reporter
    (with username, name, profile_picture, url), report (with _id, title, url,
    disclosed_at), team (with profile_picture, name), severity_rating and
    total_awarded_amount, and currency when the amount is truthy.  A payload
    lacking any of them yields an exception and no request. *)
Theorem X6_request_needs_every_field :
  forall (py : Text.Runtime) (webhook_url : option string) (payload : json)
         (request : Webhook.Request),
    Notify.slack_request py webhook_url payload = Done request ->
    webhook_url = Some (Webhook.r_url request) /\
    exists reporter report team total,
      getitem payload "reporter" = Done reporter /\
      getitem payload "report" = Done report /\
      getitem payload "team" = Done team /\
      getitem payload "total_awarded_amount" = Done total /\
      Forall (fun k => is_done (getitem reporter k) = true)
             ["username"; "name"; "profile_picture"; "url"] /\
      Forall (fun k => is_done (getitem report k) = true)
             ["_id"; "title"; "url"; "disclosed_at"] /\
      Forall (fun k => is_done (getitem team k) = true) ["profile_picture"; "name"] /\
      is_done (getitem payload "severity_rating") = true /\
      (Text.truthy total = true -> is_done (getitem payload "currency") = true).
Proof.
  intros py url payload request H. unfold Notify.slack_request in H.
  request_inv H. injection H as <-. simpl.
  split.
  - destruct url as [u|]; [|discriminate].
    match goal with Hu : Done u = Done _ |- _ => injection Hu as <- end. reflexivity.
  - match goal with
    | Htotal : getitem payload "total_awarded_amount" = Done ?total,
      Hb : (if Text.truthy ?total then _ else _) = Done _ |- _ =>
        do 4 eexists; do 4 (split; [reflexivity|]);
        repeat split; repeat constructor; try use_key;
        intros Htruthy; rewrite Htruthy in Hb;
        destruct (getitem payload "currency"); [reflexivity|discriminate Hb]
    end.
Qed.

Lemma X6_request_needs_every_field_witness :
  Notify.slack_request SlackSamples.runtime (Some SlackSamples.hook) SlackSamples.payload
    = Done SlackSamples.request /\
  Some SlackSamples.hook = Some (Webhook.r_url SlackSamples.request) /\
  is_done (getitem SlackSamples.payload "severity_rating") = true.
Proof.
  split; [reflexivity|].
  destruct (X6_request_needs_every_field
              SlackSamples.runtime (Some SlackSamples.hook) SlackSamples.payload
              SlackSamples.request eq_refl)
    as (Hu & reporter & report & team & total & _ & _ & _ & _ & _ & _ & _ & Hs & _).
  split; [exact Hu|exact Hs].
Defined.

Lemma rstrip_spec c s :
  exists n, s = Text.rstrip c s +:+ copies c n /\ ends_with c (Text.rstrip c s) = false.
Proof.
  induction s as [|a rest (n & Hrest & Hend)]; [exists 0; split; reflexivity|].
  simpl. destruct (Text.rstrip c rest) as [|b kept] eqn:Hr.
  - destruct (Ascii.eqb a c) eqn:Hac.
    + apply Ascii.eqb_eq in Hac. subst a. exists (S n).
      change (rest = copies c n) in Hrest. subst rest. split; reflexivity.
    + exists n. change (rest = copies c n) in Hrest. subst rest.
      split; [reflexivity|]. simpl. exact Hac.
  - exists n. split; [rewrite text_app_cons; f_equal; exact Hrest|exact Hend].
Qed.

(** X7: the timestamp of the attachment is taken from disclosed_at with
    every trailing "Z" removed: the text handed to the date conversion does not
    end in "Z", and disclosed_at is that text followed by "Z"s only.  When
    disclosed_at is falsy (null, empty) the attachment has no timestamp; a
    truthy disclosed_at that is no string, or one the conversion rejects,
    yields no request. *)
Theorem X7_timestamp_reads_disclosed_at_without_Z :
  forall (py : Text.Runtime) (webhook_url : option string) (payload : json)
         (request : Webhook.Request) (report disclosed_at : json),
    Notify.slack_request py webhook_url payload = Done request ->
    getitem payload "report" = Done report ->
    getitem report "disclosed_at" = Done disclosed_at ->
    exists attachment,
      Webhook.m_attachments (Webhook.r_json request) = [attachment] /\
      if Text.truthy disclosed_at then
        exists d text n t,
          disclosed_at = JStr d /\
          d = text +:+ copies "Z" n /\
          ends_with "Z" text = false /\
          Text.iso_timestamp py text = Done t /\
          Webhook.a_timestamp attachment = Some t
      else Webhook.a_timestamp attachment = None.
Proof.
  intros py url payload request report disclosed_at H Hreport Hdisclosed.
  unfold Notify.slack_request in H. rewrite Hreport in H.
  request_inv H. injection H as <-. simpl. eexists. split; [reflexivity|]. simpl.
  injection Hdisclosed as <-.
  match goal with
  | Hd : getitem report "disclosed_at" = Done ?v,
    Ht : (if Text.truthy ?v then _ else _) = Done _ |- _ =>
      apply option_step in Ht; destruct (Text.truthy v); [|assumption];
      destruct Ht as (t & Ht & ->);
      destruct v as [| | |d| |]; simpl in Ht; try discriminate;
      destruct (rstrip_spec "Z" d) as (n & Hz & Hend);
      exists d, (Text.rstrip "Z" d), n, t; auto
  end.
Qed.

Lemma X7_timestamp_reads_disclosed_at_without_Z_witness :
  Notify.slack_request SlackSamples.runtime (Some SlackSamples.hook) SlackSamples.payload
    = Done SlackSamples.request /\
  Text.rstrip "Z" "2022-09-04T13:23:03.840Z" = "2022-09-04T13:23:03.840" /\
  exists attachment,
    Webhook.m_attachments (Webhook.r_json SlackSamples.request) = [attachment] /\
    Webhook.a_timestamp attachment = Some 1662297783840000%Z.
Proof.
  split; [reflexivity|]. split; [reflexivity|].
  destruct (X7_timestamp_reads_disclosed_at_without_Z
              SlackSamples.runtime (Some SlackSamples.hook) SlackSamples.payload
              SlackSamples.request _ _ eq_refl eq_refl eq_refl)
    as (attachment & Ha & _).
  exists attachment. split; [exact Ha|]. injection Ha as <-. reflexivity.
Defined.

(** ** The severity label *)

Lemma letter_lower c :
  Text.is_upper (Text.to_lower c) || Text.is_lower (Text.to_lower c)
  = Text.is_upper c || Text.is_lower c.
Proof. destruct c as [[] [] [] [] [] [] [] []]; reflexivity. Qed.

Lemma lower_lower c : Text.to_lower (Text.to_lower c) = Text.to_lower c.
Proof. destruct c as [[] [] [] [] [] [] [] []]; reflexivity. Qed.

Lemma upper_lower c : Text.to_upper (Text.to_lower c) = Text.to_upper c.
Proof. destruct c as [[] [] [] [] [] [] [] []]; reflexivity. Qed.

Lemma replace_lower_char c :
  (if Ascii.eqb (Text.to_lower c) "_" then " "%char else Text.to_lower c)
  = Text.to_lower (if Ascii.eqb c "_" then " "%char else c).
Proof. destruct c as [[] [] [] [] [] [] [] []]; reflexivity. Qed.

Lemma replace_ascii_char c :
  (nat_of_ascii (if Ascii.eqb c "_" then " "%char else c) <? 128)%nat
  = (nat_of_ascii c <? 128)%nat.
Proof. destruct c as [[] [] [] [] [] [] [] []]; reflexivity. Qed.

Lemma title_from_lower s : forall b, Text.title_from b (Text.lower s) = Text.title_from b s.
Proof.
  induction s as [|c rest IH]; intros b; simpl; [reflexivity|].
  rewrite letter_lower, IH. destruct b; rewrite ?lower_lower, ?upper_lower; reflexivity.
Qed.

Lemma replace_lower s :
  Text.replace_char "_" " " (Text.lower s) = Text.lower (Text.replace_char "_" " " s).
Proof.
  induction s as [|c rest IH]; simpl; [reflexivity|].
  rewrite replace_lower_char, IH. reflexivity.
Qed.

Lemma replace_ascii s :
  Text.ascii_text (Text.replace_char "_" " " s) = Text.ascii_text s.
Proof.
  induction s as [|c rest IH]; simpl; [reflexivity|].
  rewrite replace_ascii_char, IH. reflexivity.
Qed.

Lemma lower_empty s : Text.lower s = "" -> s = "".
Proof. destruct s; [reflexivity|discriminate]. Qed.

Lemma severity_label_lower py r1 r2 :
  Text.faithful_title py ->
  Text.ascii_text r1 = true -> Text.ascii_text r2 = true ->
  Text.lower r1 = Text.lower r2 ->
  Text.severity_label py (JStr r1) = Text.severity_label py (JStr r2) /\
  Text.truthy (JStr r1) = Text.truthy (JStr r2).
Proof.
  intros Hpy H1 H2 Hlow. split.
  - simpl. f_equal.
    rewrite !Hpy by (rewrite replace_ascii; assumption).
    unfold Text.ascii_title.
    rewrite <- (title_from_lower (Text.replace_char "_" " " r1)),
            <- (title_from_lower (Text.replace_char "_" " " r2)),
            <- !replace_lower, Hlow.
    reflexivity.
  - simpl. destruct r1, r2; try reflexivity; discriminate.
Qed.

Lemma getitem_skip k0 v fields k :
  String.eqb k k0 = false ->
  getitem (JObj ((k0, v) :: fields)) k = getitem (JObj fields) k.
Proof. intros H. simpl. rewrite H. reflexivity. Qed.

Lemma getitem_hit k v fields : getitem (JObj ((k, v) :: fields)) k = Done v.
Proof. simpl. rewrite String.eqb_refl. reflexivity. Qed.

(** X8: the request does not depend on the letter case of
    severity_rating: for ASCII ratings that are equal up to case (with a
    runtime whose [str.title] is Python's on ASCII text), two payloads that
    differ in the rating only yield the same request, or the same exception:
    the same Severity value, fallback and colour. *)
Theorem X8_severity_ignores_letter_case :
  forall (py : Text.Runtime) (webhook_url : option string)
         (rest : list (string * json)) (r1 r2 : string),
    Text.faithful_title py ->
    Text.ascii_text r1 = true ->
    Text.ascii_text r2 = true ->
    Text.lower r1 = Text.lower r2 ->
    Notify.slack_request py webhook_url (JObj (("severity_rating", JStr r1) :: rest))
    = Notify.slack_request py webhook_url (JObj (("severity_rating", JStr r2) :: rest)).
Proof.
  intros py url rest r1 r2 Hpy H1 H2 Hlow.
  destruct (severity_label_lower py r1 r2 Hpy H1 H2 Hlow) as [Hlabel Htruthy].
  unfold Notify.slack_request.
  rewrite !getitem_hit, !getitem_skip by reflexivity.
  cbn [rbind]. rewrite Hlabel, Htruthy. reflexivity.
Qed.

Lemma X8_severity_ignores_letter_case_witness :
  Text.faithful_title SlackSamples.runtime /\
  Text.ascii_text "not_applicable" = true /\
  Text.ascii_text "NOT_Applicable" = true /\
  Text.lower "not_applicable" = Text.lower "NOT_Applicable" /\
  Notify.slack_request SlackSamples.runtime (Some SlackSamples.hook)
    (SlackSamples.rated "not_applicable")
  = Notify.slack_request SlackSamples.runtime (Some SlackSamples.hook)
      (SlackSamples.rated "NOT_Applicable").
Proof.
  assert (Hpy : Text.faithful_title SlackSamples.runtime) by (intros s _; reflexivity).
  split; [exact Hpy|]. split; [reflexivity|]. split; [reflexivity|].
  split; [reflexivity|].
  apply (X8_severity_ignores_letter_case
           SlackSamples.runtime (Some SlackSamples.hook) SlackSamples.others
           "not_applicable" "NOT_Applicable" Hpy eq_refl eq_refl eq_refl).
Defined.

(** ** slack/lambda.py against worker.py *)

(** X9: the handler of the slack lambda and [post_slack] of the worker
    send the same request for the same payload (the attachment, the footer
    icon included, the message and the address), and end the same way on the
    same answer; a record whose body is no JSON makes the handler raise the
    decoding error before anything is built. *)
Theorem X9_lambda_and_worker_send_the_same :
  forall (py : Text.Runtime) (webhook_url : option string)
         (webhook : Webhook.Request -> Reply) (payload : json) (body : string)
         (s : State),
    SlackLambda.record_request py webhook_url payload
      = Notify.slack_request py webhook_url payload /\
    SlackLambda.record_handler py webhook_url webhook
        (SlackLambda.mkSQSRecord body (Some payload))
      = fst (Notify.post_slack py webhook_url webhook payload s) /\
    SlackLambda.record_handler py webhook_url webhook (SlackLambda.mkSQSRecord body None)
      = Raised JSONDecodeError.
Proof.
  intros py url webhook payload body s.
  split; [reflexivity|]. split; [|reflexivity].
  rewrite notify_post_slack_run, post_slack_run. simpl.
  unfold SlackLambda.record_handler, slack_answer, forward_result. simpl.
  change (SlackLambda.record_request py url payload)
    with (Notify.slack_request py url payload).
  destruct (Notify.slack_request py url payload) as [request|e]; reflexivity.
Qed.

(** ** The ledger over a run *)

Lemma tight_extend s s' :
  seen s' = seen s ->
  (exists new, trace s' = trace s ++ new /\ forall k, forwards k new = 0) ->
  ledger_tight s -> ledger_tight s'.
Proof.
  intros Hs (new & Ht & Hn) H k. rewrite Ht, Hs. unfold forwards in *.
  rewrite count_app, Hn, Nat.add_0_r. apply H.
Qed.

Lemma push_tight a s :
  (forall k, is_forward_of k a = false) -> ledger_tight s -> ledger_tight (push a s).
Proof.
  intros Ha. apply tight_extend; [reflexivity|].
  exists [a]. split; [reflexivity|]. intros k. unfold forwards, count; simpl.
  rewrite Ha. reflexivity.
Qed.

Lemma processed_tight reply event s :
  ledger_tight s -> ledger_tight (snd (processed reply event s)).
Proof.
  intros H. unfold processed.
  destruct (event_id event) as [k0|e] eqn:Hid; simpl; [|exact H].
  destruct (decide (k0 ∈ seen s)) as [Hin|Hout]; simpl.
  - apply push_tight; [reflexivity|exact H].
  - intros k. simpl. rewrite !forwards_snoc. simpl. rewrite Hid, (H k).
    destruct (decide (k0 = k)) as [->|Hne].
    + rewrite bool_decide_eq_true_2 by reflexivity.
      destruct (decide (k ∈ seen s)); [contradiction|].
      destruct (decide (k ∈ {[k]} ∪ seen s)) as [_|Hno]; [reflexivity|].
      exfalso. apply Hno. set_solver.
    + rewrite bool_decide_eq_false_2 by assumption.
      destruct (decide (k ∈ seen s)) as [Hold|Hold].
      * destruct (decide (k ∈ {[k0]} ∪ seen s)) as [Hnew|Hnew]; [reflexivity|].
        exfalso. apply Hnew. apply elem_of_union. right. exact Hold.
      * destruct (decide (k ∈ {[k0]} ∪ seen s)) as [Hnew|Hnew]; [|reflexivity].
        exfalso. apply elem_of_union in Hnew. destruct Hnew as [Hnew|Hnew].
        -- apply elem_of_singleton in Hnew. congruence.
        -- contradiction.
Qed.

Lemma for_each_tight slack events : forall i s,
  ledger_tight s -> ledger_tight (snd (Worker.for_each_event slack i events s)).
Proof.
  induction events as [|event rest IH]; intros i s H; [exact H|].
  rewrite for_each_cons.
  pose proof (processed_tight (slack i) event s H) as Hp.
  destruct (processed (slack i) event s) as [[[]|e] s1]; simpl in *; [|exact Hp].
  apply IH, Hp.
Qed.

Lemma cycle_tight env s : ledger_tight s -> ledger_tight (snd (Worker.cycle env s)).
Proof.
  intros H. rewrite cycle_run.
  destruct (fetched_shape env (Worker.utcnow env - minutes 15) s) as (Hs & new & Ht & _ & Hn).
  assert (Hf : ledger_tight (snd (fetched env (Worker.utcnow env - minutes 15) s))).
  { apply (tight_extend s); [exact Hs| |exact H]. exists new. auto. }
  destruct (fetched env _ s) as [[events|e] s1]; simpl in *; [|exact Hf].
  apply for_each_tight, Hf.
Qed.

Lemma after_cycle_tight env s : ledger_tight s -> ledger_tight (after_cycle env s).
Proof.
  intros H. unfold after_cycle. pose proof (cycle_tight env s H) as Hc.
  destruct (Worker.cycle env s) as [[[]|e] s1]; simpl in *.
  - apply push_tight; [reflexivity|exact Hc].
  - apply push_tight; [reflexivity|]. apply push_tight; [reflexivity|exact Hc].
Qed.

Lemma main_loop_tight envs : forall s,
  ledger_tight s -> ledger_tight (snd (Worker.main_loop envs s)).
Proof.
  induction envs as [|env rest IH]; intros s H; [exact H|].
  rewrite main_loop_cons.
  pose proof (cycle_tight env s H) as Hc.
  pose proof (after_cycle_tight env s H) as Ha.
  assert (Hrest : ledger_tight
            (snd match Worker.sleep_reply env with
                 | None => Worker.main_loop rest (after_cycle env s)
                 | Some e => (Worker.Escaped e, after_cycle env s)
                 end)).
  { destruct (Worker.sleep_reply env); simpl; [exact Ha|]. apply IH, Ha. }
  destruct (Worker.cycle env s) as [[[]|e] s1]; simpl in *; [exact Hrest|].
  destruct e; simpl; try exact Hrest. exact Hc.
Qed.

(** X10: at every point of a run of the worker the ledger holds exactly
    the identifiers [post_slack] has been called for: an identifier is in
    [seen] if and only if the call was made for it (once), whether or not the
    call succeeded. *)
Theorem X10_ledger_is_what_was_forwarded :
  forall (envs : list Worker.CycleEnv) (k : Key),
    let final := snd (Worker.main envs) in
    (k ∈ seen final <-> forwards k (trace final) = 1) /\
    (k ∉ seen final <-> forwards k (trace final) = 0).
Proof.
  intros envs k. cbv zeta. unfold Worker.main.
  assert (Hinit : ledger_tight Worker.init) by (intros k'; reflexivity).
  pose proof (main_loop_tight envs Worker.init Hinit k) as H.
  destruct (decide (k ∈ seen (snd (Worker.main_loop envs Worker.init)))) as [Hin|Hout];
    rewrite H; split; split; intros; try assumption; try reflexivity;
    try discriminate; contradiction.
Qed.

Lemma cycle_grows env s : seen s ⊆ seen (snd (Worker.cycle env s)).
Proof.
  rewrite cycle_run.
  destruct (fetched_shape env (Worker.utcnow env - minutes 15) s) as (Hs & _).
  destruct (fetched env _ s) as [[events|e] s1]; simpl in *; [|rewrite Hs; reflexivity].
  destruct (for_each_extends (Worker.slack_reply env) events 0 s1) as (_ & Hsub & _).
  rewrite <- Hs. exact Hsub.
Qed.

Lemma after_cycle_grows env s : seen s ⊆ seen (after_cycle env s).
Proof.
  unfold after_cycle. pose proof (cycle_grows env s) as H.
  destruct (Worker.cycle env s) as [[[]|e] s1]; simpl in *; exact H.
Qed.

(** X11: the ledger never loses an identifier: across any number of
    cycles, whatever fails in them, every identifier that was in [seen] is
    still there.  Nothing is evicted while the process lives. *)
Theorem X11_ledger_only_grows :
  forall (envs : list Worker.CycleEnv) (s : State),
    seen s ⊆ seen (snd (Worker.main_loop envs s)).
Proof.
  induction envs as [|env rest IH]; intros s; [reflexivity|].
  rewrite main_loop_cons.
  pose proof (cycle_grows env s) as Hc.
  pose proof (after_cycle_grows env s) as Ha.
  assert (Hrest : seen s ⊆ seen
            (snd match Worker.sleep_reply env with
                 | None => Worker.main_loop rest (after_cycle env s)
                 | Some e => (Worker.Escaped e, after_cycle env s)
                 end)).
  { destruct (Worker.sleep_reply env); simpl; [exact Ha|].
    etransitivity; [exact Ha|apply IH]. }
  destruct (Worker.cycle env s) as [[[]|e] s1]; simpl in *; [exact Hrest|].
  destruct e; simpl; try exact Hrest. exact Hc.
Qed.

(** ** The headers of the worker's session *)

Lemma agent_push a s :
  (headers s !! "User-Agent" = Some Worker.user_agent -> carries_agent a = true) ->
  agent_kept s -> agent_kept (push a s).
Proof.
  intros Ha [Hh Ht]. split; [exact Hh|]. simpl.
  apply Forall_app. split; [exact Ht|]. constructor; [apply Ha, Hh|constructor].
Qed.

Lemma agent_request s :
  headers s !! "User-Agent" = Some Worker.user_agent ->
  forall url since,
    carries_agent (SessionPost url (headers s) since) = true /\
    carries_agent (SessionGet url (headers s)) = true.
Proof. intros H url since. simpl. rewrite !bool_decide_eq_true_2 by exact H. auto. Qed.

Lemma agent_refreshed reply s : agent_kept s -> agent_kept (snd (refreshed reply s)).
Proof.
  intros [Hh Ht]. unfold refreshed.
  destruct (refresh_result reply) as [token|e]; simpl.
  - split; simpl.
    + rewrite lookup_insert_ne by discriminate. exact Hh.
    + apply Forall_app. split; [exact Ht|].
      constructor; [apply (agent_request s Hh landing_url 0)|constructor].
  - apply agent_push; [|split; assumption].
    intros H. apply (agent_request s H landing_url 0).
Qed.

Lemma agent_fetched env since s : agent_kept s -> agent_kept (snd (fetched env since s)).
Proof.
  intros H. unfold fetched. cbv zeta.
  set (s1 := push (SessionPost graphql_url (headers s) since) s).
  assert (H1 : agent_kept s1).
  { apply agent_push; [|exact H]. intros Hh. apply (agent_request s Hh). }
  destruct (expired_token (fetch_result (Worker.fetch_reply env))); simpl; [|exact H1].
  assert (H2 : agent_kept (push (Log CsrfTokenInvalid) s1))
    by (apply agent_push; [reflexivity|exact H1]).
  pose proof (agent_refreshed (Worker.refresh_reply env) _ H2) as H3.
  destruct (refreshed (Worker.refresh_reply env) (push (Log CsrfTokenInvalid) s1))
    as [[[]|e] s3]; simpl in *; [|exact H3].
  apply agent_push; [|exact H3]. intros Hh. apply (agent_request s3 Hh).
Qed.

Lemma agent_loop s s' : loop_extends s s' -> agent_kept s -> agent_kept s'.
Proof.
  intros (Hh & _ & new & Ht & Hnew) [Ha Hall]. split; [rewrite Hh; exact Ha|].
  rewrite Ht. apply Forall_app. split; [exact Hall|].
  eapply Forall_impl; [exact Hnew|].
  intros [| | | |[]|]; simpl; intros Hx; try contradiction; reflexivity.
Qed.

Lemma agent_cycle env s : agent_kept s -> agent_kept (snd (Worker.cycle env s)).
Proof.
  intros H. rewrite cycle_run.
  pose proof (agent_fetched env (Worker.utcnow env - minutes 15) s H) as Hf.
  destruct (fetched env _ s) as [[events|e] s1]; simpl in *; [|exact Hf].
  eapply agent_loop; [apply for_each_extends|exact Hf].
Qed.

Lemma agent_after_cycle env s : agent_kept s -> agent_kept (after_cycle env s).
Proof.
  intros H. unfold after_cycle. pose proof (agent_cycle env s H) as Hc.
  destruct (Worker.cycle env s) as [[[]|e] s1]; simpl in *.
  - apply agent_push; [reflexivity|exact Hc].
  - apply agent_push; [reflexivity|]. apply agent_push; [reflexivity|exact Hc].
Qed.

Lemma agent_main_loop envs : forall s,
  agent_kept s -> agent_kept (snd (Worker.main_loop envs s)).
Proof.
  induction envs as [|env rest IH]; intros s H; [exact H|].
  rewrite main_loop_cons.
  pose proof (agent_cycle env s H) as Hc.
  pose proof (agent_after_cycle env s H) as Ha.
  assert (Hrest : agent_kept
            (snd match Worker.sleep_reply env with
                 | None => Worker.main_loop rest (after_cycle env s)
                 | Some e => (Worker.Escaped e, after_cycle env s)
                 end)).
  { destruct (Worker.sleep_reply env); simpl; [exact Ha|]. apply IH, Ha. }
  destruct (Worker.cycle env s) as [[[]|e] s1]; simpl in *; [exact Hrest|].
  destruct e; simpl; try exact Hrest. exact Hc.
Qed.

(** X12: every request the worker makes through its session, fetch or
    token refresh, in any cycle, carries the User-Agent header set at module
    level (the address of the bot's repository): refreshing the token changes
    the x-csrf-token header only. *)
Theorem X12_every_request_names_the_bot :
  forall (envs : list Worker.CycleEnv),
    let final := snd (Worker.main envs) in
    headers final !! "User-Agent"
      = Some "github.com/bored-engineer/hackeroni-slack-disclosure-bot" /\
    Forall (fun a => carries_agent a = true) (trace final).
Proof.
  intros envs. apply agent_main_loop. split; [reflexivity|constructor].
Qed.

(** X13: when the token has expired and the refresh succeeds, the re-fetch
    of the same cycle already carries the fresh token, the one found in the
    markup of the landing page, and asks for the same window as the failed
    fetch; the token stays in the session headers at the end of the cycle. *)
Theorem X13_refetch_carries_the_fresh_token :
  forall (env : Worker.CycleEnv) (s : State) (page : Response) (tag : Tag)
         (token : string),
    let since := (Worker.utcnow env - minutes 15)%Z in
    expired_token (fst (Worker.fetch_hacktivity (Worker.fetch_reply env) since s)) = true ->
    Worker.refresh_reply env = Returns page ->
    raise_for_status page = Done tt ->
    select_one_csrf_meta (markup page) = Some tag ->
    assoc "content" (attrs tag) = Some token ->
    (exists rest,
       trace (snd (Worker.cycle env s)) =
       trace s ++ [SessionPost graphql_url (headers s) since;
                   Log CsrfTokenInvalid;
                   SessionGet landing_url (headers s);
                   SessionPost graphql_url (<["x-csrf-token" := token]> (headers s)) since]
               ++ rest) /\
    headers (snd (Worker.cycle env s)) = <["x-csrf-token" := token]> (headers s).
Proof.
  intros env s page tag token since Hexp Hreply Hstatus Htag Htoken.
  unfold since in *. rewrite worker_fetch_run in Hexp. simpl in Hexp.
  rewrite cycle_run. unfold fetched. rewrite Hexp. unfold refreshed, refresh_result.
  rewrite Hreply. simpl. rewrite Hstatus. simpl. rewrite Htag. simpl. rewrite Htoken.
  simpl.
  destruct (fetch_result (Worker.refetch_reply env)) as [events|e]; simpl.
  - match goal with
    | |- context [Worker.for_each_event ?sl ?i ?ev ?st] =>
        destruct (for_each_extends sl ev i st) as (Hh & _ & new & Ht & _)
    end.
    rewrite Ht, Hh. simpl. split; [|reflexivity].
    exists new. rewrite <- !app_assoc. reflexivity.
  - split; [|reflexivity]. exists []. rewrite <- !app_assoc. reflexivity.
Qed.

Lemma X13_refetch_carries_the_fresh_token_witness :
  let env := Samples.retry_cycle
               (Returns (Samples.error_response 500 Samples.standard_error_body))
               (Returns (Samples.landing_page 200 "tok"))
               (Returns (Samples.nodes_response [Samples.X])) in
  expired_token (fst (Worker.fetch_hacktivity (Worker.fetch_reply env)
                        (Worker.utcnow env - minutes 15) Worker.init)) = true /\
  raise_for_status (Samples.landing_page 200 "tok") = Done tt /\
  headers (snd (Worker.cycle env Worker.init))
    = <["x-csrf-token" := "tok"]> (headers Worker.init).
Proof.
  split; [reflexivity|]. split; [reflexivity|].
  apply (X13_refetch_carries_the_fresh_token
           (Samples.retry_cycle
              (Returns (Samples.error_response 500 Samples.standard_error_body))
              (Returns (Samples.landing_page 200 "tok"))
              (Returns (Samples.nodes_response [Samples.X])))
           Worker.init (Samples.landing_page 200 "tok")
           (mkTag "meta" [("name", "csrf-token"); ("content", "tok")]) "tok"
           eq_refl eq_refl eq_refl eq_refl eq_refl).
Defined.

(** ** The test for an expired token *)





(** ** A node without discriminator *)

Lemma py_filter_poisoned nodes :
  Exists (fun node => is_done (getitem node "__typename") = false) nodes ->
  exists e, py_filter Worker.is_disclosed nodes = Raised e /\
            (e = KeyError "__typename" \/ e = TypeError).
Proof.
  induction 1 as [node rest Hbad|node rest _ (e & He & Hkind)]; simpl.
  - rewrite is_disclosed_run. unfold getitem in *.
    destruct node; simpl in *; try (exists TypeError; auto; fail).
    destruct (assoc "__typename" fields); [discriminate|].
    exists (KeyError "__typename"). auto.
  - rewrite is_disclosed_run, He. unfold getitem.
    destruct node; simpl; try (exists TypeError; auto; fail).
    destruct (assoc "__typename" fields); simpl; [exists e; auto|].
    exists (KeyError "__typename"). auto.
Qed.

(** X15: in the worker a single node without a __typename makes the whole
    fetch fail, with KeyError or TypeError: no event of that response is
    forwarded, the cycle ends right after the request and no token refresh is
    tried.  The poll lambda returns the same nodes untouched. *)
Theorem X15_one_bad_node_fails_the_fetch :
  forall (env : Worker.CycleEnv) (s : State) (response : Response)
         (body data items : json) (nodes : list json),
    let since := (Worker.utcnow env - minutes 15)%Z in
    Worker.fetch_reply env = Returns response ->
    raise_for_status response = Done tt ->
    json_body response = Some body ->
    getitem body "data" = Done data ->
    getitem data "hacktivity_items" = Done items ->
    getitem items "nodes" = Done (JArr nodes) ->
    Exists (fun node => is_done (getitem node "__typename") = false) nodes ->
    exists e,
      (e = KeyError "__typename" \/ e = TypeError) /\
      fst (Worker.fetch_hacktivity (Worker.fetch_reply env) since s) = Raised e /\
      Worker.cycle env s = (Raised e, push (SessionPost graphql_url (headers s) since) s) /\
      fst (Poll.fetch_hacktivity (Worker.fetch_reply env) since s) = Done (JArr nodes).
Proof.
  intros env s response body data items nodes since Hreply Hst Hbody Hdata Hitems Hnodes
         Hbad.
  destruct (py_filter_poisoned nodes Hbad) as (e & He & Hkind).
  assert (Hf : fetch_result (Worker.fetch_reply env) = Raised e).
  { unfold fetch_result, response_json. rewrite Hreply. simpl. rewrite Hst. simpl.
    rewrite Hbody. simpl. rewrite Hdata. simpl. rewrite Hitems. simpl.
    rewrite Hnodes. simpl. exact He. }
  exists e. split; [exact Hkind|]. split; [rewrite worker_fetch_run; exact Hf|]. split.
  - rewrite cycle_run. unfold fetched. rewrite Hf.
    destruct Hkind as [-> | ->]; reflexivity.
  - rewrite poll_fetch_run. simpl. unfold poll_fetch_result, response_json.
    rewrite Hreply. simpl. rewrite Hst. simpl. rewrite Hbody. simpl.
    rewrite Hdata. simpl. rewrite Hitems. simpl. exact Hnodes.
Qed.

Lemma X15_one_bad_node_fails_the_fetch_witness :
  let nodes := [Samples.X; JObj [("report", JObj [("_id", JStr "9")])]; Samples.Y] in
  let env := Samples.plain_cycle 1000000000 nodes Samples.all_ok in
  Exists (fun node => is_done (getitem node "__typename") = false) nodes /\
  exists e,
    fst (Worker.fetch_hacktivity (Worker.fetch_reply env)
           (Worker.utcnow env - minutes 15) Worker.init) = Raised e /\
    forwarded (trace (snd (Worker.cycle env Worker.init))) = [].
Proof.
  assert (Hbad : Exists (fun node => is_done (getitem node "__typename") = false)
                   [Samples.X; JObj [("report", JObj [("_id", JStr "9")])]; Samples.Y])
    by (apply Exists_cons_tl, Exists_cons_hd; reflexivity).
  split; [exact Hbad|].
  destruct (X15_one_bad_node_fails_the_fetch
              (Samples.plain_cycle 1000000000
                 [Samples.X; JObj [("report", JObj [("_id", JStr "9")])]; Samples.Y]
                 Samples.all_ok)
              Worker.init _ _ _ _ _ eq_refl eq_refl eq_refl eq_refl eq_refl eq_refl Hbad)
    as (e & _ & Hf & Hc & _).
  exists e. split; [exact Hf|]. rewrite Hc. reflexivity.
Defined.

(** ** How the loop can end *)

(** X16: [main] returns only through [break], and that only when a cycle
    raised KeyboardInterrupt, in which case nothing more is logged and there
    is no sleep; the only exceptions that can leave [main] are those raised by
    [time.sleep].  No exception from a fetch, a refresh or a forward ever
    leaves the loop. *)
Theorem X16_how_the_loop_ends :
  forall (envs : list Worker.CycleEnv) (s : State),
    match fst (Worker.main_loop envs s) with
    | Worker.Looping => True
    | Worker.Broke =>
        exists before env after s0,
          envs = before ++ env :: after /\
          Worker.cycle env s0 = (Raised KeyboardInterrupt, snd (Worker.main_loop envs s))
    | Worker.Escaped e =>
        exists env, In env envs /\ Worker.sleep_reply env = Some e
    end.
Proof.
  induction envs as [|env rest IH]; intros s; [exact I|].
  rewrite main_loop_cons.
  assert (Hrest :
    match fst match Worker.sleep_reply env with
              | None => Worker.main_loop rest (after_cycle env s)
              | Some e => (Worker.Escaped e, after_cycle env s)
              end with
    | Worker.Looping => True
    | Worker.Broke =>
        exists before env' after s0,
          env :: rest = before ++ env' :: after /\
          Worker.cycle env' s0 =
          (Raised KeyboardInterrupt,
           snd match Worker.sleep_reply env with
               | None => Worker.main_loop rest (after_cycle env s)
               | Some e => (Worker.Escaped e, after_cycle env s)
               end)
    | Worker.Escaped e =>
        exists env', In env' (env :: rest) /\ Worker.sleep_reply env' = Some e
    end).
  { destruct (Worker.sleep_reply env) as [e|] eqn:Hsleep; simpl.
    - exists env. split; [left; reflexivity|exact Hsleep].
    - specialize (IH (after_cycle env s)).
      destruct (Worker.main_loop rest (after_cycle env s)) as [[| |e] final]; simpl in *.
      + exact I.
      + destruct IH as (before & env' & after & s0 & Hsplit & Hcycle).
        exists (env :: before), env', after, s0. split; [rewrite Hsplit; reflexivity|].
        exact Hcycle.
      + destruct IH as (env' & Hin & Hsleep'). exists env'. split; [right; exact Hin|].
        exact Hsleep'. }
  destruct (Worker.cycle env s) as [[[]|e] s1] eqn:Hcycle; [exact Hrest|].
  destruct e; try exact Hrest.
  simpl. exists [], env, rest, s. split; [reflexivity|exact Hcycle].
Qed.

(** ** The poll lambda between invocations *)

(** X17: an invocation of the poll lambda takes nothing from the state it
    starts in: what it returns and the messages it sends depend on the replies
    it gets alone, not on the session headers or on anything sent before.  So
    a node fetched by two invocations is sent twice; only the deduplication
    id given to the queue can tell the copies apart. *)
Theorem X17_invocations_share_nothing :
  forall (p : Poll.InvocationEnv),
    exists outcome messages,
      forall s : State,
        fst (Poll.lambda_handler p s) = outcome /\
        sent_messages (trace (snd (Poll.lambda_handler p s)))
          = sent_messages (trace s) ++ messages.
Proof.
  intros p.
  destruct (refresh_result (Poll.refresh_reply p)) as [token|e] eqn:Hr.
  - destruct (rbind (poll_fetch_result (Poll.fetch_reply p)) iterate) as [events|e] eqn:Hf.
    + exists (fst (queued (Poll.sqs_reply p) 0 events)),
             (sent_messages (snd (queued (Poll.sqs_reply p) 0 events))).
      intros s. rewrite lambda_handler_run. unfold invoked, refreshed.
      rewrite Hr, Hf. simpl. split; [reflexivity|].
      rewrite !sent_messages_app. simpl. rewrite !app_nil_r. reflexivity.
    + exists (Raised e), []. intros s. rewrite lambda_handler_run.
      unfold invoked, refreshed. rewrite Hr, Hf. simpl. split; [reflexivity|].
      rewrite !sent_messages_app. simpl. rewrite !app_nil_r. reflexivity.
  - exists (Raised e), []. intros s. rewrite lambda_handler_run.
    unfold invoked, refreshed. rewrite Hr. simpl. split; [reflexivity|].
    rewrite !sent_messages_app. simpl. rewrite !app_nil_r. reflexivity.
Qed.
